(** * Construction-Architect-Agent: the agents' structured-response contract

    A shallow embedding of [backend/adk_core] (the Gemini service wrapper, the
    agents' [process_request] methods and the agent registry) and of
    [backend/config/settings.py], followed by the properties of the
    specification that were checked against it.

    Python objects live in a store: a dict is a reference to a store cell, so
    that aliasing and in-place updates ([d[k] = v]) are visible.  Exceptions
    are values of type [exn]; a method is a function from the world before the
    call to its outcome and the world after it. *)

From Stdlib Require Import ZArith QArith.
From stdpp Require Import base tactics option list strings gmap pretty.

Set Warnings "-register-all".
Open Scope string_scope.
Open Scope list_scope.
Open Scope nat_scope.

(** ** Python values *)

Definition loc := nat.

(** The values an agent can meet in its input, in a parsed model reply or in
    its own locals.  A float is carried as its literal; a dict is the address
    of a store cell; [VKeys r] is the live view [d.keys()] of the dict at [r]. *)
Inductive value : Type :=
| VNone
| VBool (b : bool)
| VInt (n : Z)
| VFloat (literal : string)
| VStr (s : string)
| VList (items : list value)
| VKeys (r : loc)
| VDict (r : loc).

(** The contents of one dict object: its items in insertion order, keys
    distinct. *)
Abbreviation dictobj := (list (string * value)).

(** What [json.loads] builds, before it is allocated in the store. *)
Inductive json : Type :=
| JNull
| JBool (b : bool)
| JInt (n : Z)
| JFloat (literal : string)
| JStr (s : string)
| JArr (items : list json)
| JObj (members : list (string * json)).

Fixpoint dict_lookup (k : string) (d : dictobj) : option value :=
  match d with
  | [] => None
  | (k', v) :: d' => if String.eqb k k' then Some v else dict_lookup k d'
  end.

(** [d[k] = v]: an existing key keeps its position, a new key goes last. *)
Fixpoint dict_set (k : string) (v : value) (d : dictobj) : dictobj :=
  match d with
  | [] => [(k, v)]
  | (k', v') :: d' =>
      if String.eqb k k' then (k, v) :: d' else (k', v') :: dict_set k v d'
  end.

(** A dict display [{k1: v1, ...}]: the items are stored left to right. *)
Definition dict_display (items : list (string * value)) : dictobj :=
  fold_left (λ d kv, dict_set kv.1 kv.2 d) items [].

Definition dict_keys (d : dictobj) : list string := map fst d.

Definition dict_contains (k : string) (d : dictobj) : bool :=
  bool_decide (is_Some (dict_lookup k d)).

(** ** Exceptions *)

(** The exception classes that occur, with the part of Python's class
    hierarchy the handlers depend on: [json.JSONDecodeError] and pydantic's
    [ValidationError] derive from [ValueError], everything derives from
    [Exception]. *)
Inductive exn_class : Type :=
| Exception
| ValueError
| JSONDecodeError
| ValidationError
| TypeError
| AttributeError
| KeyError
| ServiceError.

Record exn : Type := Exn { exn_cls : exn_class; exn_msg : string }.

Definition subclass (c parent : exn_class) : bool :=
  match parent, c with
  | Exception, _ => true
  | ValueError, (ValueError | JSONDecodeError | ValidationError) => true
  | JSONDecodeError, JSONDecodeError => true
  | ValidationError, ValidationError => true
  | TypeError, TypeError => true
  | AttributeError, AttributeError => true
  | KeyError, KeyError => true
  | ServiceError, ServiceError => true
  | _, _ => false
  end.

Definition isinstance_exn (e : exn) (c : exn_class) : bool :=
  subclass (exn_cls e) c.

Inductive result (A : Type) : Type :=
| Ok (a : A)
| Raise (e : exn).
Arguments Ok {A} a.
Arguments Raise {A} e.

(** ** The Vertex AI SDK, as far as the service wrapper uses it *)

(** A text reply: [response.candidates[i].content.parts[j].text]. *)
Record Part : Type := { text : string }.
Record Content : Type := { parts : list Part }.
Record Candidate : Type := { content : Content }.
Record GenerateContentResponse : Type := { candidates : list Candidate }.

(** An image reply; [png] is what [image.save(buffer, format="PNG")] writes,
    or the exception it raises. *)
Record GeneratedImage : Type := { png : result (list Byte.byte) }.
Record ImageGenerationResponse : Type := { images : list GeneratedImage }.

(** A model handle answers a request with a reply or with an exception
    (transport, authentication, quota, ...). *)
Record GenerativeModel : Type :=
  { generate_content : string → Q → result GenerateContentResponse }.
Record ImageGenerationModel : Type :=
  { generate_images : string → nat → result ImageGenerationResponse }.

Record PredictionServiceClient : Type := { api_endpoint : string }.

Record Resolver : Type := {
  resolver_project_id : string;
  resolver_location : string;
  prediction_service_client : PredictionServiceClient;
  model_name : string
}.

(** The SDK's entry points: each one succeeds or raises. *)
Class VertexAI : Type := {
  aiplatform_init : string → string → result unit;
  new_GenerativeModel : string → result GenerativeModel;
  ImageGenerationModel_from_pretrained : string → result ImageGenerationModel;
  new_PredictionServiceClient : string → result PredictionServiceClient;
  new_Resolver :
    string → string → PredictionServiceClient → string → result Resolver
}.

(** ** config/settings.py *)

Record Settings : Type := {
  GOOGLE_APPLICATION_CREDENTIALS : string;
  PROJECT_ID : string;
  LOCATION : string;
  GEMINI_MODEL_NAME : string
}.

(** services/gemini_service.py: the two model handles, [None] when the
    constructor could not initialise the SDK. *)
Record GeminiService : Type := {
  gemini_model : option GenerativeModel;
  imagen_model : option ImageGenerationModel
}.

(** agents/base_agent.py.  [self_id] is the identity of the instance.  The two
    last attributes are set by one subclass each (the site agent's mock zoning
    table and the client agent's mock project id) and are [VNone] and the
    empty string elsewhere. *)
Record BaseConstructionAgent : Type := {
  self_id : nat;
  name : string;
  description : string;
  resolver : Resolver;
  gemini_service : GeminiService;
  mock_zoning_data : value;
  mock_project_id : string
}.

(** ** The world: the object store, the calls made to external services, and
    the module globals of [adk_core/__init__.py] *)

Inductive event : Type :=
| EvGenerateContent (prompt : string) (temperature : Q)
| EvGenerateImages (prompt : string) (number_of_images : nat)
| EvJsonLoads (text : string)
| EvAiplatformInit (project location : string)
| EvGenerativeModel (model : string)
| EvImagenFromPretrained (model : string)
| EvPredictionServiceClient (endpoint : string)
| EvResolver (project location model : string).

Record world : Type := World {
  store : list dictobj;
  calls : list event;
  instances : nat;
  _adk_agents : option (list (string * BaseConstructionAgent));
  _resolver : option Resolver
}.

Definition with_store (st : list dictobj) (w : world) : world :=
  World st (calls w) (instances w) (_adk_agents w) (_resolver w).
Definition with_calls (cs : list event) (w : world) : world :=
  World (store w) cs (instances w) (_adk_agents w) (_resolver w).

Definition M (A : Type) : Type := world → result A * world.

#[global] Instance M_ret : MRet M := λ A a w, (Ok a, w).
#[global] Instance M_bind : MBind M := λ A B f m w,
  match m w with
  | (Ok a, w') => f a w'
  | (Raise e, w') => (Raise e, w')
  end.

Definition raise {A} (c : exn_class) (msg : string) : M A :=
  λ w, (Raise (Exn c msg), w).

Definition lift {A} (r : result A) : M A := λ w, (r, w).

(** [try: body / except cls as e: handler e].  An exception of another class,
    or one raised by the handler itself, propagates. *)
Definition try_except {A} (body : M A) (cls : exn_class) (handler : exn → M A) : M A :=
  λ w,
    match body w with
    | (Raise e, w') =>
        if isinstance_exn e cls then handler e w' else (Raise e, w')
    | done => done
    end.

Definition log_call (ev : event) : M unit :=
  λ w, (Ok (), with_calls (calls w ++ [ev]) w).

(** A call to an external service: it is recorded, then answers. *)
Definition external {A} (ev : event) (answer : result A) : M A :=
  log_call ev;; lift answer.

(** A dict display allocates a new object. *)
Definition new_dict (items : list (string * value)) : M value :=
  λ w, (Ok (VDict (length (store w))),
        with_store (store w ++ [dict_display items]) w).

Definition type_name (v : value) : string :=
  match v with
  | VNone => "NoneType"
  | VBool _ => "bool"
  | VInt _ => "int"
  | VFloat _ => "float"
  | VStr _ => "str"
  | VList _ => "list"
  | VKeys _ => "dict_keys"
  | VDict _ => "dict"
  end.

Definition no_attribute {A} (v : value) (attr : string) : M A :=
  raise AttributeError
    ("'" +:+ type_name v +:+ "' object has no attribute '" +:+ attr +:+ "'").

(** Reading the object behind a reference.  Every reference that a Python
    program holds is live; a dangling one is reported as a fault. *)
Definition deref (r : loc) : M dictobj :=
  λ w, match store w !! r with
       | Some d => (Ok d, w)
       | None => (Raise (Exn Exception "dangling reference"), w)
       end.

(** [v.get(k, e)]: the attribute is looked up first, then the default [e] is
    evaluated, then the method runs. *)
Definition py_get_with (v : value) (k : string) (dflt : M value) : M value :=
  match v with
  | VDict r => x ← dflt; d ← deref r; mret (default x (dict_lookup k d))
  | _ => no_attribute v "get"
  end.

(** [v.get(k)] is [py_get v k VNone]; [v.get(k, c)] for a constant or a
    variable [c] is [py_get v k c]; [v.get(k, {})] builds a new dict. *)
Definition py_get (v : value) (k : string) (dflt : value) : M value :=
  py_get_with v k (mret dflt).

Definition py_get_or_new_dict (v : value) (k : string) : M value :=
  py_get_with v k (new_dict []).

(** [v.keys()] *)
Definition py_keys (v : value) : M value :=
  match v with
  | VDict r => mret (VKeys r)
  | _ => no_attribute v "keys"
  end.

(** [v[k]] for a string key *)
Definition py_getitem (v : value) (k : string) : M value :=
  match v with
  | VDict r =>
      d ← deref r;
      match dict_lookup k d with
      | Some x => mret x
      | None => raise KeyError ("'" +:+ k +:+ "'")
      end
  | _ => raise TypeError ("'" +:+ type_name v +:+ "' object is not subscriptable")
  end.

(** [v[k] = x]: the object at [v] is updated in place. *)
Definition py_setitem (v : value) (k : string) (x : value) : M unit :=
  match v with
  | VDict r =>
      λ w, match store w !! r with
           | Some d => (Ok (), with_store (<[r := dict_set k x d]> (store w)) w)
           | None => (Raise (Exn Exception "dangling reference"), w)
           end
  | _ => raise TypeError
           ("'" +:+ type_name v +:+ "' object does not support item assignment")
  end.

(** [not isinstance(v, dict) or k1 not in v or ... or kn not in v] *)
Definition not_dict_or_lacks (v : value) (keys : list string) : M bool :=
  match v with
  | VDict r => d ← deref r; mret (negb (forallb (λ k, dict_contains k d) keys))
  | _ => mret true
  end.

(** Running [f] on the elements of a list, left to right. *)
Fixpoint traverse {A B} (f : A → M B) (l : list A) : M (list B) :=
  match l with
  | [] => mret []
  | x :: l' => y ← f x; ys ← traverse f l'; mret (y :: ys)
  end.

(** [len(v)] *)
Definition py_len (v : value) : M Z :=
  match v with
  | VStr s => mret (Z.of_nat (String.length s))
  | VList items => mret (Z.of_nat (length items))
  | VKeys r | VDict r => d ← deref r; mret (Z.of_nat (length d))
  | _ => raise TypeError ("object of type '" +:+ type_name v +:+ "' has no len()")
  end.

Fixpoint all_strings (i : nat) (items : list value) : result (list string) :=
  match items with
  | [] => Ok []
  | VStr s :: rest =>
      match all_strings (S i) rest with
      | Ok ss => Ok (s :: ss)
      | Raise e => Raise e
      end
  | v :: _ =>
      Raise (Exn TypeError
               ("sequence item " +:+ pretty i +:+ ": expected str instance, "
                +:+ type_name v +:+ " found"))
  end.

Definition characters (s : string) : list string :=
  map (λ c, String c EmptyString) (String.list_ascii_of_string s).

(** [sep.join(v)]: [v] is iterated; a str yields its characters, a dict its
    keys. *)
Definition py_join (sep : string) (v : value) : M string :=
  match v with
  | VList items => ss ← lift (all_strings 0 items); mret (String.concat sep ss)
  | VStr s => mret (String.concat sep (characters s))
  | VKeys r | VDict r => d ← deref r; mret (String.concat sep (dict_keys d))
  | _ => raise TypeError "can only join an iterable"
  end.

(** Truth value of an [Optional[str]] *)
Definition truthy (o : option string) : bool :=
  match o with
  | Some s => negb (String.eqb s "")
  | None => false
  end.

Definition opt_str (o : option string) : value :=
  match o with
  | Some s => VStr s
  | None => VNone
  end.

(** [hash(n)] for an int, on a 64-bit CPython. *)
Definition hash_int (n : Z) : Z :=
  let h := (Z.sgn n * (Z.abs n mod (2 ^ 61 - 1)))%Z in
  if (h =? -1)%Z then (-2)%Z else h.

(** ** The interpreter's library functions

    [json_decode] is the parser of [json.loads] ([None] when it raises
    [JSONDecodeError]); [json_encode] is the text [json.dumps] writes for a
    value it accepts, with the [indent] argument; [container_repr] is [str()]
    of a list, a dict or a keys view.  [str_hash], [float_hash] and
    [none_hash] are [hash()] on a str (salted per process), on a float and on
    [None]. *)
Class Interpreter : Type := {
  json_decode : string → option json;
  json_encode : option nat → list dictobj → value → string;
  container_repr : list dictobj → value → string;
  str_hash : string → Z;
  float_hash : string → Z;
  none_hash : Z;
  b64encode : list Byte.byte → string
}.

Section Builtins.
Context `{Interpreter}.

(** [str(v)], which is also how an f-string renders [{v}]. *)
Definition py_str (st : list dictobj) (v : value) : string :=
  match v with
  | VNone => "None"
  | VBool true => "True"
  | VBool false => "False"
  | VInt n => pretty n
  | VFloat literal => literal
  | VStr s => s
  | _ => container_repr st v
  end.

Definition fmt (v : value) : M string :=
  λ w, (Ok (py_str (store w) v), w).

(** [hash(v)] *)
Definition py_hash (v : value) : M Z :=
  match v with
  | VNone => mret none_hash
  | VBool b => mret (if b then 1 else 0)%Z
  | VInt n => mret (hash_int n)
  | VFloat literal => mret (float_hash literal)
  | VStr s => mret (str_hash s)
  | _ => raise TypeError ("unhashable type: '" +:+ type_name v +:+ "'")
  end.

(** [v.get(key, e)] where the key is any object: it is hashed, and only a str
    can be equal to a key of these dicts. *)
Definition py_get_by (v : value) (key : value) (dflt : M value) : M value :=
  match v with
  | VDict r =>
      x ← dflt;
      py_hash key;;
      d ← deref r;
      match key with
      | VStr k => mret (default x (dict_lookup k d))
      | _ => mret x
      end
  | _ => no_attribute v "get"
  end.

(** [json.loads] allocates what the parser built, depth first and left to
    right: every JSON object becomes a new dict. *)
Fixpoint alloc_json (j : json) : M value :=
  match j with
  | JNull => mret VNone
  | JBool b => mret (VBool b)
  | JInt n => mret (VInt n)
  | JFloat literal => mret (VFloat literal)
  | JStr s => mret (VStr s)
  | JArr items => vs ← traverse alloc_json items; mret (VList vs)
  | JObj members =>
      kvs ← traverse (λ kv, v ← alloc_json kv.2; mret (kv.1, v)) members;
      new_dict kvs
  end.

Definition json_loads (text : string) : M value :=
  log_call (EvJsonLoads text);;
  match json_decode text with
  | Some j => alloc_json j
  | None => raise JSONDecodeError "Expecting value"
  end.

(** What stops [json.dumps]: a keys view is not serialisable, and a dict that
    contains itself is a circular reference.  A chain of more dicts than the
    store holds passes twice through one of them. *)
Fixpoint dumps_fault (fuel : nat) (st : list dictobj) : value → option exn :=
  fix on_value (v : value) : option exn :=
    match v with
    | VList items =>
        (fix on_items (l : list value) : option exn :=
           match l with
           | [] => None
           | x :: l' =>
               match on_value x with
               | Some e => Some e
               | None => on_items l'
               end
           end) items
    | VKeys _ =>
        Some (Exn TypeError "Object of type dict_keys is not JSON serializable")
    | VDict r =>
        match fuel with
        | O => Some (Exn ValueError "Circular reference detected")
        | S fuel' =>
            match st !! r with
            | Some d =>
                list_find is_Some (map (λ kv, dumps_fault fuel' st kv.2) d)
                  ≫= snd
            | None => Some (Exn Exception "dangling reference")
            end
        end
    | _ => None
    end.

(** [json.dumps(v)] and [json.dumps(v, indent=n)] *)
Definition json_dumps (indent : option nat) (v : value) : M string :=
  λ w, match dumps_fault (S (length (store w))) (store w) v with
       | Some e => (Raise e, w)
       | None => (Ok (json_encode indent (store w) v), w)
       end.

End Builtins.

(** ** config/settings.py *)

Module settings_py.




End settings_py.

(** ** services/gemini_service.py *)

Module gemini_service_py.
Section Service.
Context `{Interpreter} `{VertexAI}.

(** [GeminiService.__init__] *)
Definition new_GeminiService (settings : Settings) : M GeminiService :=
  try_except
    (external (EvAiplatformInit (PROJECT_ID settings) (LOCATION settings))
       (aiplatform_init (PROJECT_ID settings) (LOCATION settings));;
     gemini ← external (EvGenerativeModel (GEMINI_MODEL_NAME settings))
                (new_GenerativeModel (GEMINI_MODEL_NAME settings));
     imagen ← external (EvImagenFromPretrained "imagen-3.0-generate-002")
                (ImageGenerationModel_from_pretrained "imagen-3.0-generate-002");
     mret {| gemini_model := Some gemini; imagen_model := Some imagen |})
    Exception
    (λ e, mret {| gemini_model := None; imagen_model := None |}).

(** [GeminiService.generate_text] *)
Definition generate_text (self : GeminiService) (prompt : string) (temperature : Q)
  : M (option string) :=
  match gemini_model self with
  | None => mret None
  | Some model =>
      try_except
        (response ← external (EvGenerateContent prompt temperature)
                      (generate_content model prompt temperature);
         match candidates response with
         | first :: _ =>
             match parts (content first) with
             | part :: _ => mret (Some (text part))
             | [] => mret None
             end
         | [] => mret None
         end)
        Exception
        (λ e, mret None)
  end.

(** [GeminiService.generate_image] *)
Definition generate_image (self : GeminiService) (prompt : string) : M (option string) :=
  match imagen_model self with
  | None => mret None
  | Some model =>
      try_except
        (reply ← external (EvGenerateImages prompt 1) (generate_images model prompt 1);
         match images reply with
         | image :: _ =>
             buffered ← lift (png image);
             mret (Some (b64encode buffered))
         | [] => mret None
         end)
        Exception
        (λ e, mret None)
  end.


End Service.
End gemini_service_py.

Export gemini_service_py.

(** ** agents/base_agent.py *)

Definition new_instance : M nat :=
  λ w, (Ok (instances w),
        World (store w) (calls w) (S (instances w)) (_adk_agents w) (_resolver w)).

(** [BaseConstructionAgent.__init__]; the attributes a subclass adds are still
    unset. *)
Definition BaseConstructionAgent_init (name description : string) (resolver : Resolver)
  : M BaseConstructionAgent :=
  id ← new_instance;
  mret {| self_id := id; name := name; description := description;
          resolver := resolver;
          gemini_service := {| gemini_model := None; imagen_model := None |};
          mock_zoning_data := VNone; mock_project_id := "" |}.

Definition get_description (self : BaseConstructionAgent) : string :=
  description self.

Definition set_gemini_service (svc : GeminiService) (self : BaseConstructionAgent)
  : BaseConstructionAgent :=
  {| self_id := self_id self; name := name self; description := description self;
     resolver := resolver self; gemini_service := svc;
     mock_zoning_data := mock_zoning_data self;
     mock_project_id := mock_project_id self |}.

Definition set_mock_zoning_data (table : value) (self : BaseConstructionAgent)
  : BaseConstructionAgent :=
  {| self_id := self_id self; name := name self; description := description self;
     resolver := resolver self; gemini_service := gemini_service self;
     mock_zoning_data := table;
     mock_project_id := mock_project_id self |}.

Definition set_mock_project_id (id : string) (self : BaseConstructionAgent)
  : BaseConstructionAgent :=
  {| self_id := self_id self; name := name self; description := description self;
     resolver := resolver self; gemini_service := gemini_service self;
     mock_zoning_data := mock_zoning_data self;
     mock_project_id := id |}.

(** The line break of the prompts. *)
Definition nl : string := String (Ascii.ascii_of_nat 10) EmptyString.


(** ** utils/common.py

    [format_output_json] is not among the available sources.  It is taken as
    given: a formatter that reads its argument and returns a text or raises. *)
Class Common : Type := {
  format_output_json : list dictobj → value → result string
}.

(** ** The shapes every agent shares *)

(** What each subclass constructor does first: [super().__init__(...)], then
    [self.gemini_service = GeminiService()]. *)
Definition new_agent `{Interpreter} `{VertexAI} (settings : Settings)
    (name description : string) (resolver : Resolver) : M BaseConstructionAgent :=
  self ← BaseConstructionAgent_init name description resolver;
  svc ← new_GeminiService settings;
  mret (set_gemini_service svc self).

(** [{"agent_name": self.name, "status": "error", "message": message}] *)
Definition error_result (self : BaseConstructionAgent) (message : string) : M value :=
  new_dict [("agent_name", VStr (name self));
            ("status", VStr "error");
            ("message", VStr message)].

(** [{"agent_name": self.name, "status": "success", key: payload}] *)
Definition success_result (self : BaseConstructionAgent) (key : string) (payload : value)
  : M value :=
  new_dict [("agent_name", VStr (name self));
            ("status", VStr "success");
            (key, payload)].

(** [s[:100] + "..." if s else "N/A"] for an [Optional[str]] *)
Definition truncated (o : option string) : value :=
  match o with
  | Some s => if truthy o then VStr (String.substring 0 100 s +:+ "...") else VStr "N/A"
  | None => VStr "N/A"
  end.

(** ** agents/strategic_client_engagement_agent.py *)

Module StrategicClientEngagementAgent.
Section Agent.
Context `{Interpreter} `{VertexAI} `{Common}.

(** [self.mock_project_id = "proj_" + str(hash("initial_project_data"))[:8]] *)
Definition init (settings : Settings) (resolver : Resolver) : M BaseConstructionAgent :=
  self ← new_agent settings
           "Strategic Client Engagement Agent"
           "Manages initial client interaction, requirement gathering, and project initiation."
           resolver;
  mret (set_mock_project_id
          ("proj_" +:+ String.substring 0 8 (pretty (str_hash "initial_project_data")))
          self).

Definition build_prompt (client_data : value) : M string :=
  s1 ← json_dumps (Some 2) client_data;
  mret ("Analyze the following client inquiry for a construction project and "
        +:+ "extract key, structured requirements. Be precise about "
        +:+ "'project_type', 'client_name', 'budget_range', 'location', and "
        +:+ "'desired_features'. Identify any ambiguities or areas requiring "
        +:+ "clarification. Also, suggest immediate next steps for the project "
        +:+ "lifecycle. " +:+ nl +:+ nl +:+ "Client Inquiry: " +:+ s1
        +:+ "Format the output STRICTLY as a JSON object with keys like "
        +:+ "'parsed_requirements', 'clarification_needed', 'suggested_next_steps'.").

(** The dict built in the [except json.JSONDecodeError] branch: it holds the
    input object itself. *)
Definition fallback (client_data : value) : M value :=
  new_dict [("parsed_requirements", client_data);
            ("clarification_needed",
             VStr "Gemini could not parse inquiry, manual review needed.");
            ("suggested_next_steps", VStr "Manual review of client inquiry.")].

Definition process_request (self : BaseConstructionAgent) (user_input : value) : M value :=
  let client_data := user_input in
  (* the log line before the [try] reads [client_data.get('client_name')] *)
  py_get client_data "client_name" VNone ≫= fmt;;
  try_except
    (prompt ← build_prompt client_data;
     gemini_response_str ← generate_text (gemini_service self) prompt 0.2%Q;
     match gemini_response_str with
     | None =>
         error_result self
           "LLM did not generate a valid response for requirement parsing."
     | Some gemini_response_str =>
         gemini_parsed_response ←
           try_except
             (json_loads gemini_response_str)
             JSONDecodeError
             (λ _, fallback client_data);
         parsed_requirements ←
           py_get gemini_parsed_response "parsed_requirements" client_data;
         clarification_needed ←
           py_get gemini_parsed_response "clarification_needed" (VStr "None");
         suggested_next_steps ←
           py_get gemini_parsed_response "suggested_next_steps"
             (VStr "Proceed to site analysis.");
         (* the log line that formats the parsed requirements *)
         (λ w, (format_output_json (store w) parsed_requirements, w));;
         new_dict [("agent_name", VStr (name self));
                   ("status", VStr "success");
                   ("details",
                    VStr "Client inquiry processed. Initial data extracted. Workflow initiated.");
                   ("parsed_data", parsed_requirements);
                   ("clarifications", clarification_needed);
                   ("workflow_suggested", suggested_next_steps);
                   ("project_id", VStr (mock_project_id self))]
     end)
    Exception
    (λ e,
       error_result self ("Failed to process client inquiry: " +:+ exn_msg e)).

End Agent.
End StrategicClientEngagementAgent.

(** ** agents/site_intelligence_regulatory_compliance_agent.py *)

Module SiteIntelligenceRegulatoryComplianceAgent.
Section Agent.
Context `{Interpreter} `{VertexAI}.

(** One entry of [self.mock_zoning_data]. *)
Definition zoning_entry (res_height res_front res_sides res_rear
                         com_height com_front com_sides com_rear coverage : Z)
                        (environmental_risk common_building_codes : string) : M value :=
  res_setbacks ← new_dict [("front", VInt res_front); ("sides", VInt res_sides);
                           ("rear", VInt res_rear)];
  residential ← new_dict [("allowed_height_m", VInt res_height);
                          ("setbacks_m", res_setbacks)];
  com_setbacks ← new_dict [("front", VInt com_front); ("sides", VInt com_sides);
                           ("rear", VInt com_rear)];
  commercial ← new_dict [("allowed_height_m", VInt com_height);
                         ("setbacks_m", com_setbacks)];
  new_dict [("residential", residential);
            ("commercial", commercial);
            ("max_coverage_percent", VInt coverage);
            ("environmental_risk", VStr environmental_risk);
            ("common_building_codes", VStr common_building_codes)].

Definition init (settings : Settings) (resolver : Resolver) : M BaseConstructionAgent :=
  self ← new_agent settings
           "Site Intelligence & Regulatory Compliance Agent"
           "Analyzes site feasibility, zoning, and regulatory compliance."
           resolver;
  london ← zoning_entry 12 5 3 7 20 3 1 5 40
             "Low (potential for minor soil contamination near old industrial sites)"
             "UK Building Regulations Part B (Fire Safety), Part M (Access to and use of buildings), Part L (Conservation of fuel and power).";
  new_york ← zoning_entry 150 0 0 0 300 0 0 0 100
               "Medium (urban heat island effect, historical underground infrastructure)"
               "NYC Building Code, ADA Compliance.";
  california ← zoning_entry 10 10 5 10 15 8 4 8 25
                 "High (wildfire risk, seismic activity, water scarcity, protected species habitats)"
                 "California Building Standards Code (Title 24), Wildland-Urban Interface (WUI) codes.";
  table ← new_dict [("London, UK", london);
                    ("New York, USA", new_york);
                    ("Rural, California, USA", california)];
  mret (set_mock_zoning_data table self).

Definition build_regulatory_prompt (location project_type initial_requirements site_info : value)
  : M string :=
  s1 ← fmt location;
  s2 ← fmt project_type;
  s3 ← json_dumps None initial_requirements;
  s4 ← json_dumps None site_info;
  mret ("Given the following site information and common building codes for a '" +:+ s1
        +:+ "' located project of type '" +:+ s2
        +:+ "', summarize the key regulatory constraints and primary environmental "
        +:+ "risks. Focus on aspects like maximum height, setbacks, and notable "
        +:+ "code sections. Also, identify any potential compliance challenges "
        +:+ "given the initial requirements: " +:+ s3 +:+ ". Site Info: " +:+ s4
        +:+ "Format the output STRICTLY as a JSON object with keys like 'summary', "
        +:+ "'compliance_challenges' (list of strings), 'recommendations' (list of "
        +:+ "strings).").

(** The dict built in the [except json.JSONDecodeError] branch. *)
Definition fallback : M value :=
  new_dict [("summary",
             VStr "Could not parse regulatory summary from AI. Manual review required.");
            ("compliance_challenges",
             VList [VStr "AI parsing failed or response malformed."]);
            ("recommendations",
             VList [VStr "Consult local regulations directly for detailed compliance."])].

Definition process_request (self : BaseConstructionAgent) (user_input : value) : M value :=
  project_id ← py_get user_input "project_id" VNone;
  location ← py_get user_input "location" VNone;
  project_type ← py_get user_input "project_type" VNone;
  initial_requirements ← py_get user_input "parsed_data" user_input;
  try_except
    (site_info ← py_get_by (mock_zoning_data self) location
                   (py_getitem (mock_zoning_data self) "London, UK");
     zoning_rules ← py_get_by site_info project_type (new_dict []);
     environmental_risk ← py_get site_info "environmental_risk" (VStr "Unknown");
     common_codes ← py_get site_info "common_building_codes"
                      (VStr "Standard building codes apply.");
     regulatory_prompt ← build_regulatory_prompt location project_type
                           initial_requirements site_info;
     gemini_regulatory_response_str ←
       generate_text (gemini_service self) regulatory_prompt 0.2%Q;
     match gemini_regulatory_response_str with
     | None =>
         error_result self
           "LLM did not generate a valid response for regulatory interpretation."
     | Some gemini_regulatory_response_str =>
         gemini_regulatory_parsed ←
           try_except
             (json_loads gemini_regulatory_response_str)
             JSONDecodeError
             (λ _, fallback);
         allowed_height ← py_get zoning_rules "allowed_height_m" (VStr "N/A");
         setbacks ← py_get_or_new_dict zoning_rules "setbacks_m";
         max_coverage ← py_get site_info "max_coverage_percent" (VStr "N/A");
         zoning_data ← new_dict [("allowed_height_m", allowed_height);
                                 ("setbacks_m", setbacks);
                                 ("max_coverage_percent", max_coverage)];
         summary ← py_get gemini_regulatory_parsed "summary" (VStr "N/A");
         challenges ← py_get gemini_regulatory_parsed "compliance_challenges" (VList []);
         recommendations ← py_get gemini_regulatory_parsed "recommendations" (VList []);
         site_feasibility_report ←
           new_dict [("project_id", project_id);
                     ("location", location);
                     ("project_type", project_type);
                     ("status", VStr "initial_analysis_complete");
                     ("zoning_data", zoning_data);
                     ("environmental_risk", environmental_risk);
                     ("common_building_codes", common_codes);
                     ("regulatory_summary_ai", summary);
                     ("compliance_challenges_ai", challenges);
                     ("site_recommendations_ai", recommendations)];
         success_result self "site_feasibility_report" site_feasibility_report
     end)
    Exception
    (λ e,
       pid ← fmt project_id;
       error_result self ("Failed site analysis for " +:+ pid +:+ ": " +:+ exn_msg e)).

End Agent.
End SiteIntelligenceRegulatoryComplianceAgent.

(** ** agents/generative_architectural_design_agent.py *)

Module GenerativeArchitecturalDesignAgent.
Section Agent.
Context `{Interpreter} `{VertexAI}.

Definition init (settings : Settings) (resolver : Resolver) : M BaseConstructionAgent :=
  new_agent settings
    "Generative Architectural Design Agent"
    "Generates initial architectural concepts and visual sketches."
    resolver.

Definition build_design_prompt (initial_requirements site_report : value) : M string :=
  s1 ← py_get initial_requirements "project_type" VNone ≫= fmt;
  s2 ← py_get initial_requirements "desired_features" VNone ≫= fmt;
  zoning_data ← py_get_or_new_dict site_report "zoning_data";
  s3 ← py_get zoning_data "allowed_height_m" (VStr "N/A") ≫= fmt;
  s4 ← json_dumps None site_report;
  s5 ← json_dumps None initial_requirements;
  mret ("Based on the following site feasibility report and initial client "
        +:+ "requirements, propose an architectural concept. Consider the project "
        +:+ "type '" +:+ s1 +:+ "' and desired features '" +:+ s2
        +:+ "', adhering to zoning rules like max height " +:+ s3
        +:+ "m. Summarize the proposed style, key design elements, and how it "
        +:+ "addresses site constraints. Site Report: " +:+ s4 +:+ nl
        +:+ "Initial Requirements: " +:+ s5 +:+ nl
        +:+ "Format output STRICTLY as JSON with keys 'design_summary' (string), "
        +:+ "'key_elements' (list of strings), 'considerations' (list of strings).").

Definition build_image_prompt (initial_requirements site_report gemini_design_parsed : value)
  : M string :=
  s1 ← py_get initial_requirements "project_type" VNone ≫= fmt;
  s2 ← py_get site_report "location" VNone ≫= fmt;
  s3 ← py_get initial_requirements "desired_features" (VList []) ≫= py_join ", ";
  s4 ← py_get gemini_design_parsed "design_summary" VNone ≫= fmt;
  mret ("Architectural sketch of a " +:+ s1 +:+ " in " +:+ s2 +:+ " with features like "
        +:+ s3 +:+ " and a " +:+ s4
        +:+ " style. Exterior view, clear daylight, high detail, concept art.").

(** The dict built in the [except json.JSONDecodeError] branch. *)
Definition fallback : M value :=
  new_dict [("design_summary",
             VStr "Could not parse design summary from AI. Manual design review needed.");
            ("key_elements", VList [VStr "Unspecified"]);
            ("considerations",
             VList [VStr "Manual design. AI parsing failed or response malformed."])].

Definition process_request (self : BaseConstructionAgent) (user_input : value) : M value :=
  project_id ← py_get user_input "project_id" VNone;
  site_report ← py_get_or_new_dict user_input "site_feasibility_report";
  initial_requirements ← py_get user_input "parsed_data" user_input;
  try_except
    (design_prompt ← build_design_prompt initial_requirements site_report;
     gemini_design_response_str ←
       generate_text (gemini_service self) design_prompt 0.5%Q;
     match gemini_design_response_str with
     | None =>
         error_result self
           "LLM did not generate a valid response for design concept."
     | Some gemini_design_response_str =>
         gemini_design_parsed ←
           try_except
             (json_loads gemini_design_response_str)
             JSONDecodeError
             (λ _, fallback);
         image_prompt ← build_image_prompt initial_requirements site_report
                          gemini_design_parsed;
         image_base64 ← generate_image (gemini_service self) image_prompt;
         design_summary ← py_get gemini_design_parsed "design_summary" VNone;
         key_elements ← py_get gemini_design_parsed "key_elements" (VList []);
         considerations ← py_get gemini_design_parsed "considerations" (VList []);
         simulated_design_concept ←
           new_dict [("project_id", project_id);
                     ("design_style_summary", design_summary);
                     ("key_design_elements", key_elements);
                     ("site_considerations_addressed", considerations);
                     ("conceptual_render_base64", truncated image_base64);
                     ("full_conceptual_render_base64", opt_str image_base64);
                     ("floor_plan_url_placeholder",
                      VStr "https://placehold.co/600x400/FF0000/FFFFFF?text=Conceptual_Floor_Plan")];
         success_result self "architectural_concept" simulated_design_concept
     end)
    Exception
    (λ e,
       pid ← fmt project_id;
       error_result self
         ("Failed architectural design for " +:+ pid +:+ ": " +:+ exn_msg e)).

End Agent.
End GenerativeArchitecturalDesignAgent.

(** ** agents/integrated_systems_engineering_agent.py *)

Module IntegratedSystemsEngineeringAgent.
Section Agent.
Context `{Interpreter} `{VertexAI}.

Definition init (settings : Settings) (resolver : Resolver) : M BaseConstructionAgent :=
  new_agent settings
    "Integrated Systems Engineering Agent"
    "Develops preliminary structural and MEP designs."
    resolver.

Definition build_prompt (architectural_concept project_type site_report : value) : M string :=
  s1 ← py_get architectural_concept "design_style_summary" VNone ≫= fmt;
  s2 ← fmt project_type;
  s3 ← py_get site_report "environmental_risk" VNone ≫= fmt;
  mret ("Given the architectural concept '" +:+ s1 +:+ "' for a " +:+ s2
        +:+ " project and site conditions related to '" +:+ s3
        +:+ "', propose preliminary structural considerations (e.g., foundation "
        +:+ "type, material recommendations) and MEP (Mechanical, Electrical, "
        +:+ "Plumbing) system recommendations (e.g., HVAC type, smart home "
        +:+ "integration, water efficiency). Highlight any potential integration "
        +:+ "challenges. Format output STRICTLY as a JSON object with keys "
        +:+ "'structural_notes' (string), 'mep_notes' (string), "
        +:+ "'integration_challenges' (list of strings).").

(** The dict built in the [except json.JSONDecodeError] branch. *)
Definition fallback : M value :=
  new_dict [("structural_notes", VStr "Generic structural design considerations.");
            ("mep_notes", VStr "Standard MEP system recommendations.");
            ("integration_challenges", VList [VStr "LLM response parsing failed."])].

Definition process_request (self : BaseConstructionAgent) (user_input : value) : M value :=
  project_id ← py_get user_input "project_id" VNone;
  architectural_concept ← py_get_or_new_dict user_input "architectural_concept";
  site_report ← py_get_or_new_dict user_input "site_feasibility_report";
  project_type ← py_get user_input "project_type" (VStr "residential");
  try_except
    (prompt ← build_prompt architectural_concept project_type site_report;
     llm_response ← generate_text (gemini_service self) prompt 0.4%Q;
     match llm_response with
     | None =>
         error_result self
           "LLM did not generate a valid response for systems engineering."
     | Some llm_response =>
         parsed_response ←
           try_except
             (json_loads llm_response)
             JSONDecodeError
             (λ _, fallback);
         structural_notes ← py_get parsed_response "structural_notes" VNone;
         mep_notes ← py_get parsed_response "mep_notes" VNone;
         n ← py_get parsed_response "integration_challenges" (VList []) ≫= py_len;
         integration_challenges ←
           py_get parsed_response "integration_challenges" (VList []);
         simulated_system_design ←
           new_dict [("project_id", project_id);
                     ("structural_design_status", VStr "preliminary_complete");
                     ("mep_design_status", VStr "preliminary_complete");
                     ("structural_notes", structural_notes);
                     ("mep_notes", mep_notes);
                     ("design_conflicts_detected", VBool (0 <? n)%Z);
                     ("integration_challenges", integration_challenges)];
         success_result self "system_design" simulated_system_design
     end)
    Exception
    (λ e,
       pid ← fmt project_id;
       error_result self
         ("Failed systems engineering for " +:+ pid +:+ ": " +:+ exn_msg e)).

End Agent.
End IntegratedSystemsEngineeringAgent.

(** ** agents/interior_experiential_design_agent.py *)

Module InteriorExperientialDesignAgent.
Section Agent.
Context `{Interpreter} `{VertexAI}.

Definition init (settings : Settings) (resolver : Resolver) : M BaseConstructionAgent :=
  new_agent settings
    "Interior Experiential Design Agent"
    "Designs interior spaces and surrounding landscape."
    resolver.

Definition build_prompt (project_type architectural_concept desired_features : value)
  : M string :=
  s1 ← fmt project_type;
  s2 ← py_get architectural_concept "design_style_summary" VNone ≫= fmt;
  s3 ← py_join ", " desired_features;
  mret ("Based on a '" +:+ s1 +:+ "' project with architectural style '" +:+ s2
        +:+ "' and desired features '" +:+ s3
        +:+ "', propose interior design elements (style, materials, key spaces) "
        +:+ "and landscape design features (garden style, outdoor elements). Focus "
        +:+ "on enhancing user experience and functionality. Output STRICTLY as a "
        +:+ "JSON object with keys 'interior_style' (string), 'landscape_features' "
        +:+ "(string), 'material_palette_notes' (string).").

(** The dict built in the [except json.JSONDecodeError] branch. *)
Definition fallback : M value :=
  new_dict [("interior_style", VStr "Modern generic");
            ("landscape_features", VStr "Basic garden layout");
            ("material_palette_notes", VStr "Standard materials")].

Definition process_request (self : BaseConstructionAgent) (user_input : value) : M value :=
  project_id ← py_get user_input "project_id" VNone;
  architectural_concept ← py_get_or_new_dict user_input "architectural_concept";
  desired_features ← py_get user_input "desired_features" (VList []);
  project_type ← py_get user_input "project_type" (VStr "residential");
  try_except
    (prompt ← build_prompt project_type architectural_concept desired_features;
     llm_response ← generate_text (gemini_service self) prompt 0.6%Q;
     match llm_response with
     | None =>
         error_result self
           "LLM did not generate a valid response for experiential design."
     | Some llm_response =>
         parsed_response ←
           try_except
             (json_loads llm_response)
             JSONDecodeError
             (λ _, fallback);
         interior_style ← py_get parsed_response "interior_style" VNone;
         landscape_features ← py_get parsed_response "landscape_features" VNone;
         material_palette_notes ← py_get parsed_response "material_palette_notes" VNone;
         simulated_experiential_design ←
           new_dict [("project_id", project_id);
                     ("interior_style", interior_style);
                     ("landscape_features", landscape_features);
                     ("material_palette_notes", material_palette_notes);
                     ("mood_board_url_placeholder",
                      VStr "https://placehold.co/600x400/996633/FFFFFF?text=Interior_Mood_Board")];
         success_result self "experiential_design" simulated_experiential_design
     end)
    Exception
    (λ e,
       pid ← fmt project_id;
       error_result self
         ("Failed experiential design for " +:+ pid +:+ ": " +:+ exn_msg e)).

End Agent.
End InteriorExperientialDesignAgent.

(** ** agents/hyper_realistic_3d_digital_twin_agent.py *)

Module HyperRealistic3DDigitalTwinAgent.
Section Agent.
Context `{Interpreter} `{VertexAI}.

Definition init (settings : Settings) (resolver : Resolver) : M BaseConstructionAgent :=
  new_agent settings
    "Hyper-Realistic 3D Digital Twin Agent"
    "Integrates all design aspects into a comprehensive 3D model and generates renders."
    resolver.

Definition build_exterior_render_prompt
    (architectural_concept site_report experiential_design : value) : M string :=
  s1 ← py_get architectural_concept "design_style_summary" VNone ≫= fmt;
  s2 ← py_get site_report "location" VNone ≫= fmt;
  s3 ← py_get experiential_design "landscape_features" VNone ≫= fmt;
  s4 ← py_get architectural_concept "key_design_elements" (VList []) ≫= py_join ", ";
  mret ("Photorealistic 3D exterior render of a " +:+ s1 +:+ " building at " +:+ s2
        +:+ " with a '" +:+ s3 +:+ "' landscape. Incorporate elements from features like "
        +:+ s4 +:+ ". High detail, natural lighting, daytime.").

Definition build_interior_render_prompt
    (architectural_concept experiential_design : value) : M string :=
  s1 ← py_get architectural_concept "design_style_summary" VNone ≫= fmt;
  s2 ← py_get experiential_design "interior_style" VNone ≫= fmt;
  s3 ← py_get experiential_design "material_palette_notes" VNone ≫= fmt;
  mret ("Photorealistic 3D interior render of a " +:+ s1 +:+ " building, with '" +:+ s2
        +:+ "' decor and materials like '" +:+ s3
        +:+ "'. Warm lighting, cozy atmosphere, focus on a living area.").

Definition process_request (self : BaseConstructionAgent) (user_input : value) : M value :=
  project_id ← py_get user_input "project_id" VNone;
  architectural_concept ← py_get_or_new_dict user_input "architectural_concept";
  experiential_design ← py_get_or_new_dict user_input "experiential_design";
  site_report ← py_get_or_new_dict user_input "site_feasibility_report";
  try_except
    (exterior_render_prompt ←
       build_exterior_render_prompt architectural_concept site_report experiential_design;
     exterior_render_base64 ←
       generate_image (gemini_service self) exterior_render_prompt;
     interior_render_prompt ←
       build_interior_render_prompt architectural_concept experiential_design;
     interior_render_base64 ←
       generate_image (gemini_service self) interior_render_prompt;
     generated_render_prompts ←
       new_dict [("exterior", VStr exterior_render_prompt);
                 ("interior", VStr interior_render_prompt)];
     simulated_twin_output ←
       new_dict [("project_id", project_id);
                 ("digital_twin_url_placeholder",
                  VStr "[https://example.com/digital_twin_model.gltf](https://example.com/digital_twin_model.gltf)");
                 ("exterior_render_base64", truncated exterior_render_base64);
                 ("full_exterior_render_base64", opt_str exterior_render_base64);
                 ("interior_render_base64", truncated interior_render_base64);
                 ("full_interior_render_base64", opt_str interior_render_base64);
                 ("status", VStr "initial_twin_created");
                 ("details",
                  VStr "High-fidelity digital twin model and initial renders generated.");
                 ("generated_render_prompts", generated_render_prompts)];
     success_result self "digital_twin_output" simulated_twin_output)
    Exception
    (λ e,
       pid ← fmt project_id;
       error_result self
         ("Failed digital twin creation for " +:+ pid +:+ ": " +:+ exn_msg e)).

End Agent.
End HyperRealistic3DDigitalTwinAgent.

(** ** agents/predictive_cost_supply_chain_agent.py *)

Module PredictiveCostSupplyChainAgent.
Section Agent.
Context `{Interpreter} `{VertexAI}.

Definition init (settings : Settings) (resolver : Resolver) : M BaseConstructionAgent :=
  new_agent settings
    "Predictive Cost & Supply Chain Agent"
    "Estimates project costs and develops a preliminary procurement plan."
    resolver.

Definition required_keys : list string :=
  ["total_estimated_cost_usd"; "cost_breakdown"; "procurement_strategy"].

Definition build_cost_prompt (project_description project_size architectural_concept
                              system_design experiential_design : value) : M string :=
  s1 ← fmt project_description;
  s2 ← fmt project_size;
  s3 ← py_get architectural_concept "design_style_summary" VNone ≫= fmt;
  s4 ← py_get system_design "structural_notes" VNone ≫= fmt;
  s5 ← py_get system_design "mep_notes" VNone ≫= fmt;
  s6 ← py_get experiential_design "material_palette_notes" VNone ≫= fmt;
  mret ("As a construction cost estimator and supply chain analyst, provide a "
        +:+ "detailed cost breakdown and preliminary procurement strategy for a '" +:+ s1
        +:+ "' project of '" +:+ s2
        +:+ "' size. Consider insights from the architectural concept ('" +:+ s3
        +:+ "'), system design notes ('" +:+ s4 +:+ "', '" +:+ s5
        +:+ "'), and interior design material palette ('" +:+ s6
        +:+ "'). Break down costs into: materials, labor, equipment, permits/fees, "
        +:+ "and contingency (e.g., 10%). Suggest a procurement strategy focusing "
        +:+ "on efficiency and cost-effectiveness. Output STRICTLY as a JSON "
        +:+ "object with 'total_estimated_cost_usd' (number), 'cost_breakdown' "
        +:+ "(object with breakdown), and 'procurement_strategy' (string).").

(** The dict built in the [except json.JSONDecodeError] branch. *)
Definition fallback (project_id : value) : M value :=
  h ← py_hash project_id;
  cost_breakdown ← new_dict [("materials", VStr "N/A"); ("labor", VStr "N/A");
                             ("equipment", VStr "N/A"); ("permits_fees", VStr "N/A");
                             ("contingency", VStr "N/A")];
  new_dict [("total_estimated_cost_usd", VInt (700000 + h mod 100000));
            ("cost_breakdown", cost_breakdown);
            ("procurement_strategy",
             VStr "Generic procurement strategy due to parsing error.")].

Definition process_request (self : BaseConstructionAgent) (user_input : value) : M value :=
  project_id ← py_get user_input "project_id" VNone;
  architectural_concept ← py_get_or_new_dict user_input "architectural_concept";
  system_design ← py_get_or_new_dict user_input "system_design";
  experiential_design ← py_get_or_new_dict user_input "experiential_design";
  project_description ← py_get user_input "project_description"
                          (VStr "a construction project");
  project_size ← py_get user_input "project_size" (VStr "medium");
  try_except
    (cost_prompt ← build_cost_prompt project_description project_size
                     architectural_concept system_design experiential_design;
     llm_response ← generate_text (gemini_service self) cost_prompt 0.3%Q;
     match llm_response with
     | None =>
         error_result self
           "LLM did not generate a valid response for cost/supply chain."
     | Some llm_response =>
         simulated_cost_estimate ←
           try_except
             (simulated_cost_estimate ← json_loads llm_response;
              unexpected ← not_dict_or_lacks simulated_cost_estimate required_keys;
              if unexpected : bool
              then raise ValueError
                     "LLM response JSON is not in the expected cost/supply chain format."
              else mret simulated_cost_estimate)
             JSONDecodeError
             (λ _, fallback project_id);
         py_setitem simulated_cost_estimate "project_id" project_id;;
         py_setitem simulated_cost_estimate "status" (VStr "cost_estimation_complete");;
         success_result self "cost_supply_chain_analysis" simulated_cost_estimate
     end)
    Exception
    (λ e,
       pid ← fmt project_id;
       error_result self
         ("Failed cost and supply chain analysis for " +:+ pid +:+ ": " +:+ exn_msg e)).

End Agent.
End PredictiveCostSupplyChainAgent.

(** ** agents/adaptive_project_management_robotics_orchestration_agent.py *)

Module AdaptiveProjectManagementRoboticsOrchestrationAgent.
Section Agent.
Context `{Interpreter} `{VertexAI}.

Definition init (settings : Settings) (resolver : Resolver) : M BaseConstructionAgent :=
  new_agent settings
    "Adaptive Project Management & Robotics Orchestration Agent"
    "Manages project planning, scheduling, and overall coordination."
    resolver.

Definition required_keys : list string :=
  ["status"; "budget_summary"; "timeline_summary"; "key_milestones_overview"].

Definition build_prompt (project_description cost_supply_chain_analysis estimated_schedule
                         site_report architectural_concept : value) : M string :=
  s1 ← fmt project_description;
  s2 ← py_get cost_supply_chain_analysis "total_estimated_cost_usd" (VStr "N/A") ≫= fmt;
  s3 ← py_get_or_new_dict cost_supply_chain_analysis "cost_breakdown" ≫= json_dumps None;
  s4 ← py_get cost_supply_chain_analysis "procurement_strategy" (VStr "N/A") ≫= fmt;
  s5 ← py_get estimated_schedule "total_duration_weeks" (VStr "N/A") ≫= fmt;
  s6 ← py_get estimated_schedule "milestones" (VList []) ≫= json_dumps None;
  s7 ← py_get site_report "regulatory_summary_ai" (VStr "N/A") ≫= fmt;
  s8 ← py_get architectural_concept "design_style_summary" (VStr "N/A") ≫= fmt;
  mret ("As a senior project manager for a construction project, synthesize a "
        +:+ "master project plan for '" +:+ s1
        +:+ "'. Integrate the following information: " +:+ nl +:+ "- Estimated Budget: "
        +:+ s2 +:+ nl +:+ "- Cost Breakdown: " +:+ s3 +:+ nl +:+ "- Procurement Strategy: "
        +:+ s4 +:+ nl +:+ "- Total Duration: " +:+ s5 +:+ " weeks" +:+ nl
        +:+ "- Key Milestones: " +:+ s6 +:+ nl +:+ "- Site Considerations: " +:+ s7 +:+ nl
        +:+ "- Architectural Style: " +:+ s8 +:+ nl +:+ nl
        +:+ "Based on this, outline a master plan including key phases, potential "
        +:+ "risks, and next steps for client approval. Output STRICTLY as a JSON "
        +:+ "object with keys: 'status', 'budget_summary', 'timeline_summary', "
        +:+ "'key_milestones_overview', 'risks_identified' (list of strings), "
        +:+ "'next_steps' (list of strings).").

(** The dict built in the [except json.JSONDecodeError] branch. *)
Definition fallback (cost_supply_chain_analysis estimated_schedule : value) : M value :=
  s1 ← py_get cost_supply_chain_analysis "total_estimated_cost_usd" (VStr "N/A") ≫= fmt;
  s2 ← py_get estimated_schedule "total_duration_weeks" (VStr "N/A") ≫= fmt;
  new_dict [("status", VStr "master_plan_drafted_with_errors");
            ("budget_summary", VStr ("Approx. $" +:+ s1 +:+ " (parsing error)"));
            ("timeline_summary", VStr (s2 +:+ " weeks (parsing error)"));
            ("key_milestones_overview", VStr "Milestones parsing failed.");
            ("risks_identified",
             VList [VStr "LLM response parsing failed, manual risk review needed."]);
            ("next_steps", VList [VStr "Review generated output manually."])].

Definition process_request (self : BaseConstructionAgent) (user_input : value) : M value :=
  project_id ← py_get user_input "project_id" VNone;
  cost_supply_chain_analysis ← py_get_or_new_dict user_input "cost_supply_chain_analysis";
  estimated_schedule ← py_get_or_new_dict user_input "estimated_schedule";
  site_report ← py_get_or_new_dict user_input "site_feasibility_report";
  architectural_concept ← py_get_or_new_dict user_input "architectural_concept";
  project_description ← py_get user_input "project_description"
                          (VStr "a construction project");
  try_except
    (prompt ← build_prompt project_description cost_supply_chain_analysis
                estimated_schedule site_report architectural_concept;
     llm_response ← generate_text (gemini_service self) prompt 0.4%Q;
     match llm_response with
     | None =>
         error_result self
           "LLM did not generate a valid response for project plan."
     | Some llm_response =>
         simulated_master_plan ←
           try_except
             (simulated_master_plan ← json_loads llm_response;
              unexpected ← not_dict_or_lacks simulated_master_plan required_keys;
              if unexpected : bool
              then raise ValueError
                     "LLM response JSON is not in the expected project plan format."
              else mret simulated_master_plan)
             JSONDecodeError
             (λ _, fallback cost_supply_chain_analysis estimated_schedule);
         py_setitem simulated_master_plan "project_id" project_id;;
         success_result self "master_project_plan" simulated_master_plan
     end)
    Exception
    (λ e,
       pid ← fmt project_id;
       error_result self
         ("Failed project planning for " +:+ pid +:+ ": " +:+ exn_msg e)).

End Agent.
End AdaptiveProjectManagementRoboticsOrchestrationAgent.

(** ** agents/proactive_risk_safety_management_agent.py *)

Module ProactiveRiskSafetyManagementAgent.
Section Agent.
Context `{Interpreter} `{VertexAI}.

Definition init (settings : Settings) (resolver : Resolver) : M BaseConstructionAgent :=
  new_agent settings
    "Proactive Risk & Safety Management Agent"
    "Identifies, assesses, and mitigates project risks and ensures safety compliance."
    resolver.

Definition required_keys : list string :=
  ["identified_risks"; "mitigation_strategies"; "safety_highlights"].

Definition build_prompt (project_description master_project_plan site_report : value) : M string :=
  s1 ← fmt project_description;
  s2 ← py_get master_project_plan "budget_summary" VNone ≫= fmt;
  s3 ← py_get master_project_plan "timeline_summary" VNone ≫= fmt;
  s4 ← py_get master_project_plan "key_milestones_overview" VNone ≫= fmt;
  s5 ← py_get site_report "environmental_risk" VNone ≫= fmt;
  s6 ← py_get site_report "compliance_challenges_ai" (VList []) ≫= py_join ", ";
  mret ("As a construction risk and safety manager, analyze the following "
        +:+ "project details and identify potential risks (financial, schedule, "
        +:+ "technical, safety). Suggest mitigation strategies for these risks. " +:+ nl
        +:+ "Project Description: " +:+ s1 +:+ nl +:+ "Master Plan Summary: " +:+ s2
        +:+ ", " +:+ s3 +:+ ", Milestones: " +:+ s4 +:+ nl
        +:+ "Site Report Environmental Risk: " +:+ s5 +:+ nl
        +:+ "Site Compliance Challenges: " +:+ s6
        +:+ "Output STRICTLY as a JSON object with keys 'identified_risks' (list "
        +:+ "of strings with description and type), 'mitigation_strategies' (list "
        +:+ "of strings), 'safety_highlights' (list of strings).").

(** The dict built in the [except json.JSONDecodeError] branch. *)
Definition fallback : M value :=
  new_dict [("identified_risks", VList [VStr "Generic risk identified due to parsing error."]);
            ("mitigation_strategies", VList [VStr "Generic mitigation strategy."]);
            ("safety_highlights", VList [VStr "General safety practices applicable."])].

Definition process_request (self : BaseConstructionAgent) (user_input : value) : M value :=
  project_id ← py_get user_input "project_id" VNone;
  master_project_plan ← py_get_or_new_dict user_input "master_project_plan";
  site_report ← py_get_or_new_dict user_input "site_feasibility_report";
  project_description ← py_get user_input "project_description" (VStr "a construction project");
  try_except
    (prompt ← build_prompt project_description master_project_plan site_report;
     llm_response ← generate_text (gemini_service self) prompt 0.5%Q;
     match llm_response with
     | None =>
         error_result self
           "LLM did not generate a valid response for risk/safety."
     | Some llm_response =>
         parsed_response ←
           try_except
             (parsed_response ← json_loads llm_response;
              unexpected ← not_dict_or_lacks parsed_response required_keys;
              if unexpected : bool
              then raise ValueError
                     "LLM response JSON is not in the expected risk/safety format."
              else mret parsed_response)
             JSONDecodeError
             (λ _, fallback);
         v1 ← py_get parsed_response "identified_risks" VNone;
         v2 ← py_get parsed_response "mitigation_strategies" VNone;
         v3 ← py_get parsed_response "safety_highlights" VNone;
         simulated_risk_safety ←
           new_dict [("project_id", project_id);
                     ("status", VStr "risk_safety_assessment_complete");
                     ("risks", v1);
                     ("mitigation_strategies", v2);
                     ("safety_highlights", v3)];
         success_result self "risk_safety_assessment" simulated_risk_safety
     end)
    Exception
    (λ e,
       pid ← fmt project_id;
       error_result self
         ("Failed risk/safety assessment for " +:+ pid +:+ ": " +:+ exn_msg e)).

End Agent.
End ProactiveRiskSafetyManagementAgent.

(** ** agents/semantic_data_integration_ontology_agent.py *)

Module SemanticDataIntegrationOntologyAgent.
Section Agent.
Context `{Interpreter} `{VertexAI}.

Definition init (settings : Settings) (resolver : Resolver) : M BaseConstructionAgent :=
  new_agent settings
    "Semantic Data Integration & Ontology Agent"
    "Manages project data integration and semantic consistency."
    resolver.

Definition required_keys : list string :=
  ["data_domains"; "integration_challenges"; "suggested_ontologies"].

Definition build_prompt (project_id agent_outputs_summary : value) : M string :=
  s1 ← fmt project_id;
  s2 ← json_dumps (Some 2) agent_outputs_summary;
  mret ("As a semantic data integration and ontology expert for construction "
        +:+ "projects, analyze the following data entities and types generated for "
        +:+ "project '" +:+ s1 +:+ "': " +:+ s2
        +:+ ". Suggest key data domains (e.g., BIM, GIS, Cost, Schedule, HR), "
        +:+ "potential data integration challenges, and propose relevant "
        +:+ "construction ontologies (e.g., IFC, buildingSMART Data Dictionary, "
        +:+ "W3C BOT Ontology) for semantic interoperability. Output STRICTLY as a "
        +:+ "JSON object with keys 'data_domains' (list of strings), "
        +:+ "'integration_challenges' (list of strings), 'suggested_ontologies' "
        +:+ "(list of strings).").

(** The dict built in the [except json.JSONDecodeError] branch. *)
Definition fallback : M value :=
  new_dict [("data_domains", VList [VStr "Design"; VStr "Cost"; VStr "Schedule"]);
            ("integration_challenges", VList [VStr "Data silos"; VStr "Format incompatibility"]);
            ("suggested_ontologies", VList [VStr "IFC (Industry Foundation Classes)"])].

Definition process_request (self : BaseConstructionAgent) (user_input : value) : M value :=
  project_id ← py_get user_input "project_id" VNone;
  client_requirements ← py_get_or_new_dict user_input "parsed_data" ≫= py_keys;
  site_report_keys ← py_get_or_new_dict user_input "site_feasibility_report" ≫= py_keys;
  architectural_keys ← py_get_or_new_dict user_input "architectural_concept" ≫= py_keys;
  system_design_keys ← py_get_or_new_dict user_input "system_design" ≫= py_keys;
  experiential_design_keys ← py_get_or_new_dict user_input "experiential_design" ≫= py_keys;
  cost_keys ← py_get_or_new_dict user_input "cost_supply_chain_analysis" ≫= py_keys;
  schedule_keys ← py_get_or_new_dict user_input "estimated_schedule" ≫= py_keys;
  agent_outputs_summary ←
    new_dict [("client_requirements", client_requirements);
              ("site_report_keys", site_report_keys);
              ("architectural_keys", architectural_keys);
              ("system_design_keys", system_design_keys);
              ("experiential_design_keys", experiential_design_keys);
              ("cost_keys", cost_keys);
              ("schedule_keys", schedule_keys)];
  try_except
    (prompt ← build_prompt project_id agent_outputs_summary;
     llm_response ← generate_text (gemini_service self) prompt 0.3%Q;
     match llm_response with
     | None =>
         error_result self
           "LLM did not generate a valid response for data integration."
     | Some llm_response =>
         parsed_response ←
           try_except
             (parsed_response ← json_loads llm_response;
              unexpected ← not_dict_or_lacks parsed_response required_keys;
              if unexpected : bool
              then raise ValueError
                     "LLM response JSON is not in the expected data integration format."
              else mret parsed_response)
             JSONDecodeError
             (λ _, fallback);
         v1 ← py_get parsed_response "data_domains" VNone;
         v2 ← py_get parsed_response "integration_challenges" VNone;
         v3 ← py_get parsed_response "suggested_ontologies" VNone;
         simulated_data_integration ←
           new_dict [("project_id", project_id);
                     ("status", VStr "data_integration_analysis_complete");
                     ("data_domains_identified", v1);
                     ("potential_integration_challenges", v2);
                     ("recommended_ontologies", v3)];
         success_result self "data_integration_analysis" simulated_data_integration
     end)
    Exception
    (λ e,
       pid ← fmt project_id;
       error_result self
         ("Failed data integration analysis for " +:+ pid +:+ ": " +:+ exn_msg e)).

End Agent.
End SemanticDataIntegrationOntologyAgent.

(** ** agents/learning_adaptation_agent.py *)

Module LearningAdaptationAgent.
Section Agent.
Context `{Interpreter} `{VertexAI}.

Definition init (settings : Settings) (resolver : Resolver) : M BaseConstructionAgent :=
  new_agent settings
    "Learning & Adaptation Agent"
    "Analyzes project outcomes to learn and suggest improvements for future projects."
    resolver.

Definition required_keys : list string :=
  ["lessons_learned"; "adaptation_suggestions"].

Definition build_prompt (project_description project_size location : value) : M string :=
  s1 ← fmt project_description;
  s2 ← fmt project_size;
  s3 ← fmt location;
  mret ("Based on a hypothetical '" +:+ s1 +:+ "' project of '" +:+ s2 +:+ "' size in '"
        +:+ s3 +:+ "', what are common lessons learned or areas for adaptation in similar "
        +:+ "construction projects? Suggest improvements for efficiency, "
        +:+ "cost-effectiveness, or quality for future projects. Output STRICTLY "
        +:+ "as a JSON object with keys 'lessons_learned' (list of strings), "
        +:+ "'adaptation_suggestions' (list of strings).").

(** The dict built in the [except json.JSONDecodeError] branch. *)
Definition fallback : M value :=
  new_dict [("lessons_learned", VList [VStr "Generic lesson: communication is key."]);
            ("adaptation_suggestions", VList [VStr "Improve initial planning accuracy."])].

Definition process_request (self : BaseConstructionAgent) (user_input : value) : M value :=
  project_id ← py_get user_input "project_id" VNone;
  project_description ← py_get user_input "project_description" (VStr "a construction project");
  project_size ← py_get user_input "project_size" (VStr "medium");
  location ← py_get user_input "location" (VStr "unspecified");
  try_except
    (prompt ← build_prompt project_description project_size location;
     llm_response ← generate_text (gemini_service self) prompt 0.6%Q;
     match llm_response with
     | None =>
         error_result self
           "LLM did not generate a valid response for learning/adaptation."
     | Some llm_response =>
         parsed_response ←
           try_except
             (parsed_response ← json_loads llm_response;
              unexpected ← not_dict_or_lacks parsed_response required_keys;
              if unexpected : bool
              then raise ValueError
                     "LLM response JSON is not in the expected learning/adaptation format."
              else mret parsed_response)
             JSONDecodeError
             (λ _, fallback);
         v1 ← py_get parsed_response "lessons_learned" VNone;
         v2 ← py_get parsed_response "adaptation_suggestions" VNone;
         simulated_learning_output ←
           new_dict [("project_id", project_id);
                     ("status", VStr "simulated_learning_complete");
                     ("lessons_learned", v1);
                     ("adaptation_suggestions", v2)];
         success_result self "learning_adaptation_insights" simulated_learning_output
     end)
    Exception
    (λ e,
       pid ← fmt project_id;
       error_result self
         ("Failed simulated learning for " +:+ pid +:+ ": " +:+ exn_msg e)).

End Agent.
End LearningAdaptationAgent.

(** ** agents/human_ai_collaboration_explainability_agent.py *)

Module HumanAICollaborationExplainabilityAgent.
Section Agent.
Context `{Interpreter} `{VertexAI}.

Definition init (settings : Settings) (resolver : Resolver) : M BaseConstructionAgent :=
  new_agent settings
    "Human-AI Collaboration & Explainability Agent"
    "Facilitates human interaction, explains AI decisions, and manages feedback."
    resolver.

Definition required_keys : list string :=
  ["summary_for_human"; "key_findings"; "recommended_human_actions"].

Definition build_prompt (client_name master_project_plan risk_safety_assessment qa_plan : value) : M string :=
  s1 ← fmt client_name;
  s2 ← json_dumps (Some 2) master_project_plan;
  s3 ← json_dumps (Some 2) risk_safety_assessment;
  s4 ← json_dumps (Some 2) qa_plan;
  mret ("As an AI system liaison, prepare a concise summary for human review "
        +:+ "for a construction project. Consolidate key information from the "
        +:+ "master project plan, risk and safety assessment, and quality "
        +:+ "assurance plan. Explain the key findings clearly and suggest next "
        +:+ "human actions (e.g., 'review and approve'). Address it to '" +:+ s1 +:+ "'. "
        +:+ nl +:+ nl +:+ "Master Project Plan: " +:+ s2 +:+ nl
        +:+ "Risk & Safety Assessment: " +:+ s3 +:+ nl +:+ "Quality Assurance Plan: "
        +:+ s4 +:+ "Output STRICTLY as a JSON object with keys 'summary_for_human' "
        +:+ "(string), 'key_findings' (list of strings), "
        +:+ "'recommended_human_actions' (list of strings).").

(** The dict built in the [except json.JSONDecodeError] branch. *)
Definition fallback : M value :=
  new_dict [("summary_for_human", VStr "Summary generation failed due to parsing error. Please review raw agent outputs.");
            ("key_findings", VList [VStr "Core data available in raw outputs."]);
            ("recommended_human_actions", VList [VStr "Manually review all agent outputs."])].

Definition process_request (self : BaseConstructionAgent) (user_input : value) : M value :=
  project_id ← py_get user_input "project_id" VNone;
  master_project_plan ← py_get_or_new_dict user_input "master_project_plan";
  risk_safety_assessment ← py_get_or_new_dict user_input "risk_safety_assessment";
  qa_plan ← py_get_or_new_dict user_input "quality_assurance_plan";
  client_name ← py_get user_input "client_name" (VStr "Valued Client");
  try_except
    (prompt ← build_prompt client_name master_project_plan risk_safety_assessment qa_plan;
     llm_response ← generate_text (gemini_service self) prompt 0.5%Q;
     match llm_response with
     | None =>
         error_result self
           "LLM did not generate a valid response for human collaboration summary."
     | Some llm_response =>
         parsed_response ←
           try_except
             (parsed_response ← json_loads llm_response;
              unexpected ← not_dict_or_lacks parsed_response required_keys;
              if unexpected : bool
              then raise ValueError
                     "LLM response JSON is not in the expected human collaboration format."
              else mret parsed_response)
             JSONDecodeError
             (λ _, fallback);
         v1 ← py_get parsed_response "summary_for_human" VNone;
         v2 ← py_get parsed_response "key_findings" VNone;
         v3 ← py_get parsed_response "recommended_human_actions" VNone;
         simulated_human_collaboration_output ←
           new_dict [("project_id", project_id);
                     ("status", VStr "summary_for_human_review_prepared");
                     ("summary_text", v1);
                     ("key_findings", v2);
                     ("recommended_actions", v3)];
         success_result self "human_collaboration_summary" simulated_human_collaboration_output
     end)
    Exception
    (λ e,
       pid ← fmt project_id;
       error_result self
         ("Failed to prepare human collaboration summary for " +:+ pid +:+ ": " +:+ exn_msg e)).

End Agent.
End HumanAICollaborationExplainabilityAgent.

(** ** agents/sustainability_green_building_agent.py *)

Module SustainabilityGreenBuildingAgent.
Section Agent.
Context `{Interpreter} `{VertexAI}.

Definition init (settings : Settings) (resolver : Resolver) : M BaseConstructionAgent :=
  new_agent settings
    "Sustainability & Green Building Agent"
    "Optimizes environmental impact and ensures green building compliance."
    resolver.

Definition required_keys : list string :=
  ["sustainability_potential"; "green_strategies"; "potential_certifications"].

Definition build_prompt (project_description architectural_concept system_design experiential_design : value) : M string :=
  s1 ← fmt project_description;
  s2 ← py_get architectural_concept "design_style_summary" VNone ≫= fmt;
  s3 ← py_get system_design "structural_notes" VNone ≫= fmt;
  s4 ← py_get system_design "mep_notes" VNone ≫= fmt;
  s5 ← py_get experiential_design "material_palette_notes" VNone ≫= fmt;
  mret ("As a sustainability and green building expert, evaluate the potential "
        +:+ "for sustainability for a project described as '" +:+ s1
        +:+ "' with architectural style '" +:+ s2 +:+ "', structural notes '" +:+ s3
        +:+ "', MEP notes '" +:+ s4 +:+ "', and materials like '" +:+ s5
        +:+ "'. Suggest key green building strategies (e.g., energy efficiency, "
        +:+ "water conservation, material sourcing) and potential certifications "
        +:+ "(e.g., LEED, BREEAM, Passive House) it could aim for. Output STRICTLY "
        +:+ "as a JSON object with keys 'sustainability_potential' (string "
        +:+ "summary), 'green_strategies' (list of strings), "
        +:+ "'potential_certifications' (list of strings).").

(** The dict built in the [except json.JSONDecodeError] branch. *)
Definition fallback : M value :=
  new_dict [("sustainability_potential", VStr "Assessment failed due to parsing error.");
            ("green_strategies", VList [VStr "Use energy-efficient lighting"; VStr "Recycle construction waste"]);
            ("potential_certifications", VList [VStr "Green Star"])].

Definition process_request (self : BaseConstructionAgent) (user_input : value) : M value :=
  project_id ← py_get user_input "project_id" VNone;
  project_description ← py_get user_input "project_description" (VStr "a construction project");
  architectural_concept ← py_get_or_new_dict user_input "architectural_concept";
  system_design ← py_get_or_new_dict user_input "system_design";
  experiential_design ← py_get_or_new_dict user_input "experiential_design";
  try_except
    (prompt ← build_prompt project_description architectural_concept system_design experiential_design;
     llm_response ← generate_text (gemini_service self) prompt 0.5%Q;
     match llm_response with
     | None =>
         error_result self
           "LLM did not generate a valid response for sustainability."
     | Some llm_response =>
         parsed_response ←
           try_except
             (parsed_response ← json_loads llm_response;
              unexpected ← not_dict_or_lacks parsed_response required_keys;
              if unexpected : bool
              then raise ValueError
                     "LLM response JSON is not in the expected sustainability format."
              else mret parsed_response)
             JSONDecodeError
             (λ _, fallback);
         v1 ← py_get parsed_response "sustainability_potential" VNone;
         v2 ← py_get parsed_response "green_strategies" VNone;
         v3 ← py_get parsed_response "potential_certifications" VNone;
         simulated_sustainability_analysis ←
           new_dict [("project_id", project_id);
                     ("status", VStr "sustainability_assessment_complete");
                     ("sustainability_potential", v1);
                     ("green_strategies", v2);
                     ("potential_certifications", v3)];
         success_result self "sustainability_analysis" simulated_sustainability_analysis
     end)
    Exception
    (λ e,
       pid ← fmt project_id;
       error_result self
         ("Failed sustainability assessment for " +:+ pid +:+ ": " +:+ exn_msg e)).

End Agent.
End SustainabilityGreenBuildingAgent.

(** ** agents/legal_contract_management_agent.py *)

Module LegalContractManagementAgent.
Section Agent.
Context `{Interpreter} `{VertexAI}.

Definition init (settings : Settings) (resolver : Resolver) : M BaseConstructionAgent :=
  new_agent settings
    "Legal & Contract Management Agent"
    "Manages legal documents, contracts, and regulatory compliance."
    resolver.

Definition required_keys : list string :=
  ["legal_overview"; "common_contract_types"; "key_contract_clauses"; "required_permits_licenses"].

Definition build_prompt (project_type location site_report : value) : M string :=
  s1 ← fmt project_type;
  s2 ← fmt location;
  s3 ← py_get site_report "regulatory_summary_ai" VNone ≫= fmt;
  s4 ← py_get site_report "compliance_challenges_ai" (VList []) ≫= py_join ", ";
  mret ("As a construction legal and contract management expert, outline key "
        +:+ "legal considerations and common contract types for a '" +:+ s1
        +:+ "' project in '" +:+ s2
        +:+ "'. Consider regulatory challenges mentioned in the site report: '" +:+ s3
        +:+ "' and potential compliance challenges: " +:+ s4
        +:+ ". Suggest important contract clauses and necessary permits/licenses. "
        +:+ "Output STRICTLY as a JSON object with keys 'legal_overview' (string "
        +:+ "summary), 'common_contract_types' (list of strings), "
        +:+ "'key_contract_clauses' (list of strings), 'required_permits_licenses' "
        +:+ "(list of strings).").

(** The dict built in the [except json.JSONDecodeError] branch. *)
Definition fallback : M value :=
  new_dict [("legal_overview", VStr "Legal assessment failed due to parsing error.");
            ("common_contract_types", VList [VStr "Fixed Price"; VStr "Cost-Plus"]);
            ("key_contract_clauses", VList [VStr "Scope of Work"; VStr "Payment Terms"]);
            ("required_permits_licenses", VList [VStr "Building Permit"; VStr "Zoning Approval"])].

Definition process_request (self : BaseConstructionAgent) (user_input : value) : M value :=
  project_id ← py_get user_input "project_id" VNone;
  location ← py_get user_input "location" (VStr "unspecified");
  project_type ← py_get user_input "project_type" (VStr "construction");
  site_report ← py_get_or_new_dict user_input "site_feasibility_report";
  try_except
    (prompt ← build_prompt project_type location site_report;
     llm_response ← generate_text (gemini_service self) prompt 0.5%Q;
     match llm_response with
     | None =>
         error_result self
           "LLM did not generate a valid response for legal/contract management."
     | Some llm_response =>
         parsed_response ←
           try_except
             (parsed_response ← json_loads llm_response;
              unexpected ← not_dict_or_lacks parsed_response required_keys;
              if unexpected : bool
              then raise ValueError
                     "LLM response JSON is not in the expected legal/contract format."
              else mret parsed_response)
             JSONDecodeError
             (λ _, fallback);
         v1 ← py_get parsed_response "legal_overview" VNone;
         v2 ← py_get parsed_response "common_contract_types" VNone;
         v3 ← py_get parsed_response "key_contract_clauses" VNone;
         v4 ← py_get parsed_response "required_permits_licenses" VNone;
         simulated_legal_analysis ←
           new_dict [("project_id", project_id);
                     ("status", VStr "legal_assessment_complete");
                     ("legal_overview", v1);
                     ("common_contract_types", v2);
                     ("key_contract_clauses", v3);
                     ("required_permits_licenses", v4)];
         success_result self "legal_contract_analysis" simulated_legal_analysis
     end)
    Exception
    (λ e,
       pid ← fmt project_id;
       error_result self
         ("Failed legal/contract assessment for " +:+ pid +:+ ": " +:+ exn_msg e)).

End Agent.
End LegalContractManagementAgent.

(** ** agents/workforce_management_hr_agent.py *)

Module WorkforceManagementHRAgent.
Section Agent.
Context `{Interpreter} `{VertexAI}.

Definition init (settings : Settings) (resolver : Resolver) : M BaseConstructionAgent :=
  new_agent settings
    "Workforce Management & HR Agent"
    "Optimizes workforce allocation and manages HR functions."
    resolver.

Definition required_keys : list string :=
  ["workforce_needs"; "hr_considerations"; "labor_compliance_highlights"].

Definition build_prompt (project_size estimated_schedule location : value) : M string :=
  s1 ← fmt project_size;
  s2 ← py_get estimated_schedule "total_duration_weeks" (VStr "N/A") ≫= fmt;
  s3 ← fmt location;
  mret ("As a construction workforce and HR manager, based on a '" +:+ s1
        +:+ "' size project with an estimated duration of " +:+ s2 +:+ " weeks in '" +:+ s3
        +:+ "', outline the key workforce needs (e.g., required trades, estimated "
        +:+ "team size), important HR considerations (e.g., recruitment "
        +:+ "challenges, training needs, labor laws), and basic labor compliance "
        +:+ "aspects for this type of project. Output STRICTLY as a JSON object "
        +:+ "with keys 'workforce_needs' (list of strings), 'hr_considerations' "
        +:+ "(list of strings), 'labor_compliance_highlights' (list of strings).").

(** The dict built in the [except json.JSONDecodeError] branch. *)
Definition fallback : M value :=
  new_dict [("workforce_needs", VList [VStr "Skilled laborers"; VStr "Project manager"]);
            ("hr_considerations", VList [VStr "Competitive salaries"; VStr "Safety training"]);
            ("labor_compliance_highlights", VList [VStr "Local labor laws adherence"])].

Definition process_request (self : BaseConstructionAgent) (user_input : value) : M value :=
  project_id ← py_get user_input "project_id" VNone;
  project_size ← py_get user_input "project_size" (VStr "medium");
  estimated_schedule ← py_get_or_new_dict user_input "estimated_schedule";
  location ← py_get user_input "location" (VStr "unspecified");
  try_except
    (prompt ← build_prompt project_size estimated_schedule location;
     llm_response ← generate_text (gemini_service self) prompt 0.5%Q;
     match llm_response with
     | None =>
         error_result self
           "LLM did not generate a valid response for workforce/HR."
     | Some llm_response =>
         parsed_response ←
           try_except
             (parsed_response ← json_loads llm_response;
              unexpected ← not_dict_or_lacks parsed_response required_keys;
              if unexpected : bool
              then raise ValueError
                     "LLM response JSON is not in the expected workforce/HR format."
              else mret parsed_response)
             JSONDecodeError
             (λ _, fallback);
         v1 ← py_get parsed_response "workforce_needs" VNone;
         v2 ← py_get parsed_response "hr_considerations" VNone;
         v3 ← py_get parsed_response "labor_compliance_highlights" VNone;
         simulated_workforce_hr_analysis ←
           new_dict [("project_id", project_id);
                     ("status", VStr "workforce_hr_assessment_complete");
                     ("workforce_needs", v1);
                     ("hr_considerations", v2);
                     ("labor_compliance_highlights", v3)];
         success_result self "workforce_hr_analysis" simulated_workforce_hr_analysis
     end)
    Exception
    (λ e,
       pid ← fmt project_id;
       error_result self
         ("Failed workforce/HR assessment for " +:+ pid +:+ ": " +:+ exn_msg e)).

End Agent.
End WorkforceManagementHRAgent.

(** ** agents/post_construction_facility_management_agent.py *)

Module PostConstructionFacilityManagementAgent.
Section Agent.
Context `{Interpreter} `{VertexAI}.

Definition init (settings : Settings) (resolver : Resolver) : M BaseConstructionAgent :=
  new_agent settings
    "Post-Construction & Facility Management Agent"
    "Manages post-construction operations and facility maintenance."
    resolver.

Definition required_keys : list string :=
  ["fm_overview"; "maintenance_requirements"; "operational_challenges"; "smart_building_tech_suggestions"].

Definition build_prompt (project_type project_description architectural_concept system_design : value) : M string :=
  s1 ← fmt project_type;
  s2 ← fmt project_description;
  s3 ← py_get architectural_concept "design_style_summary" VNone ≫= fmt;
  s4 ← py_get system_design "mep_notes" VNone ≫= fmt;
  mret ("As a facility management expert, outline key post-construction and "
        +:+ "facility management considerations for a '" +:+ s1
        +:+ "' project described as '" +:+ s2 +:+ "'. Consider its architectural style '"
        +:+ s3 +:+ "' and system design elements (e.g., '" +:+ s4
        +:+ "'). Suggest typical maintenance requirements, potential operational "
        +:+ "challenges, and smart building technologies for long-term efficiency. "
        +:+ "Output STRICTLY as a JSON object with keys 'fm_overview' (string "
        +:+ "summary), 'maintenance_requirements' (list of strings), "
        +:+ "'operational_challenges' (list of strings), "
        +:+ "'smart_building_tech_suggestions' (list of strings).").

(** The dict built in the [except json.JSONDecodeError] branch. *)
Definition fallback : M value :=
  new_dict [("fm_overview", VStr "FM assessment failed due to parsing error.");
            ("maintenance_requirements", VList [VStr "HVAC checks"; VStr "Roof inspections"]);
            ("operational_challenges", VList [VStr "Energy consumption management"]);
            ("smart_building_tech_suggestions", VList [VStr "Automated lighting"; VStr "Predictive HVAC"])].

Definition process_request (self : BaseConstructionAgent) (user_input : value) : M value :=
  project_id ← py_get user_input "project_id" VNone;
  project_type ← py_get user_input "project_type" (VStr "residential");
  project_description ← py_get user_input "project_description" (VStr "a construction project");
  architectural_concept ← py_get_or_new_dict user_input "architectural_concept";
  system_design ← py_get_or_new_dict user_input "system_design";
  try_except
    (prompt ← build_prompt project_type project_description architectural_concept system_design;
     llm_response ← generate_text (gemini_service self) prompt 0.5%Q;
     match llm_response with
     | None =>
         error_result self
           "LLM did not generate a valid response for post-construction/FM."
     | Some llm_response =>
         parsed_response ←
           try_except
             (parsed_response ← json_loads llm_response;
              unexpected ← not_dict_or_lacks parsed_response required_keys;
              if unexpected : bool
              then raise ValueError
                     "LLM response JSON is not in the expected post-construction/FM format."
              else mret parsed_response)
             JSONDecodeError
             (λ _, fallback);
         v1 ← py_get parsed_response "fm_overview" VNone;
         v2 ← py_get parsed_response "maintenance_requirements" VNone;
         v3 ← py_get parsed_response "operational_challenges" VNone;
         v4 ← py_get parsed_response "smart_building_tech_suggestions" VNone;
         simulated_fm_analysis ←
           new_dict [("project_id", project_id);
                     ("status", VStr "fm_assessment_complete");
                     ("fm_overview", v1);
                     ("maintenance_requirements", v2);
                     ("operational_challenges", v3);
                     ("smart_building_tech_suggestions", v4)];
         success_result self "post_construction_fm_analysis" simulated_fm_analysis
     end)
    Exception
    (λ e,
       pid ← fmt project_id;
       error_result self
         ("Failed FM assessment for " +:+ pid +:+ ": " +:+ exn_msg e)).

End Agent.
End PostConstructionFacilityManagementAgent.

(** ** agents/public_relations_stakeholder_communication_agent.py *)

Module PublicRelationsStakeholderCommunicationAgent.
Section Agent.
Context `{Interpreter} `{VertexAI}.

Definition init (settings : Settings) (resolver : Resolver) : M BaseConstructionAgent :=
  new_agent settings
    "Public Relations & Stakeholder Communication Agent"
    "Manages external communications and stakeholder engagement."
    resolver.

Definition required_keys : list string :=
  ["communication_overview"; "key_stakeholders"; "communication_channels"; "key_messages"].

Definition build_prompt (project_description location client_name : value) : M string :=
  s1 ← fmt project_description;
  s2 ← fmt location;
  s3 ← fmt client_name;
  mret ("As a public relations and stakeholder communication expert for a "
        +:+ "construction project, outline a preliminary communication strategy "
        +:+ "for the '" +:+ s1 +:+ "' project in '" +:+ s2 +:+ "', initiated by '" +:+ s3
        +:+ "'. Identify key stakeholder groups (e.g., local community, "
        +:+ "government, media, investors), suggest communication channels (e.g., "
        +:+ "press releases, community meetings, social media), and propose key "
        +:+ "messages for transparency and positive public image. Output STRICTLY "
        +:+ "as a JSON object with keys 'communication_overview' (string summary), "
        +:+ "'key_stakeholders' (list of strings), 'communication_channels' (list "
        +:+ "of strings), 'key_messages' (list of strings).").

(** The dict built in the [except json.JSONDecodeError] branch. *)
Definition fallback : M value :=
  new_dict [("communication_overview", VStr "PR strategy generation failed due to parsing error.");
            ("key_stakeholders", VList [VStr "Local residents"; VStr "Media"]);
            ("communication_channels", VList [VStr "Project website"; VStr "Local newspaper"]);
            ("key_messages", VList [VStr "Building for the future"; VStr "Minimizing disruption"])].

Definition process_request (self : BaseConstructionAgent) (user_input : value) : M value :=
  project_id ← py_get user_input "project_id" VNone;
  client_name ← py_get user_input "client_name" (VStr "the Client");
  project_description ← py_get user_input "project_description" (VStr "a construction project");
  location ← py_get user_input "location" (VStr "unspecified");
  try_except
    (prompt ← build_prompt project_description location client_name;
     llm_response ← generate_text (gemini_service self) prompt 0.5%Q;
     match llm_response with
     | None =>
         error_result self
           "LLM did not generate a valid response for public relations."
     | Some llm_response =>
         parsed_response ←
           try_except
             (parsed_response ← json_loads llm_response;
              unexpected ← not_dict_or_lacks parsed_response required_keys;
              if unexpected : bool
              then raise ValueError
                     "LLM response JSON is not in the expected public relations format."
              else mret parsed_response)
             JSONDecodeError
             (λ _, fallback);
         v1 ← py_get parsed_response "communication_overview" VNone;
         v2 ← py_get parsed_response "key_stakeholders" VNone;
         v3 ← py_get parsed_response "communication_channels" VNone;
         v4 ← py_get parsed_response "key_messages" VNone;
         simulated_pr_strategy ←
           new_dict [("project_id", project_id);
                     ("status", VStr "pr_strategy_drafted");
                     ("communication_overview", v1);
                     ("key_stakeholders", v2);
                     ("communication_channels", v3);
                     ("key_messages", v4)];
         success_result self "public_relations_strategy" simulated_pr_strategy
     end)
    Exception
    (λ e,
       pid ← fmt project_id;
       error_result self
         ("Failed PR strategy generation for " +:+ pid +:+ ": " +:+ exn_msg e)).

End Agent.
End PublicRelationsStakeholderCommunicationAgent.

(** ** adk_core/__init__.py: the agent registry *)

Module adk_core.
Section Registry.
Context `{Interpreter} `{VertexAI} `{Common}.

(** The module-level [settings] object. *)
Variable settings : Settings.

(** The names and descriptions of the two agent classes whose files are not
    among the available sources. *)
Variables quality_name quality_description : string.
Variables finance_name finance_description : string.








End Registry.
End adk_core.

(** ** The agent classes and the dispatch of [process_request] *)

Inductive agent_class : Type :=
| ClientEngagement
| SiteIntelligence
| ArchitecturalDesign
| SystemsEngineering
| ExperientialDesign
| DigitalTwin
| CostSupplyChain
| ProjectManagement
| RiskSafety
| DataIntegration
| LearningAdaptation
| HumanCollaboration
| Sustainability
| LegalContract
| WorkforceHR
| FacilityManagement
| PublicRelations.

Section Dispatch.
Context `{Interpreter} `{VertexAI} `{Common}.

Definition process_request (c : agent_class)
  : BaseConstructionAgent → value → M value :=
  match c with
  | ClientEngagement => StrategicClientEngagementAgent.process_request
  | SiteIntelligence => SiteIntelligenceRegulatoryComplianceAgent.process_request
  | ArchitecturalDesign => GenerativeArchitecturalDesignAgent.process_request
  | SystemsEngineering => IntegratedSystemsEngineeringAgent.process_request
  | ExperientialDesign => InteriorExperientialDesignAgent.process_request
  | DigitalTwin => HyperRealistic3DDigitalTwinAgent.process_request
  | CostSupplyChain => PredictiveCostSupplyChainAgent.process_request
  | ProjectManagement =>
      AdaptiveProjectManagementRoboticsOrchestrationAgent.process_request
  | RiskSafety => ProactiveRiskSafetyManagementAgent.process_request
  | DataIntegration => SemanticDataIntegrationOntologyAgent.process_request
  | LearningAdaptation => LearningAdaptationAgent.process_request
  | HumanCollaboration => HumanAICollaborationExplainabilityAgent.process_request
  | Sustainability => SustainabilityGreenBuildingAgent.process_request
  | LegalContract => LegalContractManagementAgent.process_request
  | WorkforceHR => WorkforceManagementHRAgent.process_request
  | FacilityManagement => PostConstructionFacilityManagementAgent.process_request
  | PublicRelations =>
      PublicRelationsStakeholderCommunicationAgent.process_request
  end.

End Dispatch.

(** ** Reading a run *)

(** The item [k] of the dict [v] in the world [w]. *)
Definition field (w : world) (v : value) (k : string) : option value :=
  match v with
  | VDict r => store w !! r ≫= dict_lookup k
  | _ => None
  end.

(** The external calls made between [w] and a later world [w']. *)
Definition new_calls (w w' : world) : list event :=
  drop (length (calls w)) (calls w').

Definition is_loads (ev : event) : bool :=
  match ev with
  | EvJsonLoads _ => true
  | _ => false
  end.

(** What [generate_text] hands back for a request: the text of the first part
    of the first candidate, when the handle exists and answers with one. *)
Definition answer (svc : GeminiService) (prompt : string) (temperature : Q)
  : option string :=
  match gemini_model svc with
  | None => None
  | Some model =>
      match generate_content model prompt temperature with
      | Ok response =>
          match candidates response with
          | first :: _ =>
              match parts (content first) with
              | part :: _ => Some (text part)
              | [] => None
              end
          | [] => None
          end
      | Raise _ => None
      end
  end.

(** The call [generate_text] records: none when it has no handle. *)
Definition generation_calls (svc : GeminiService) (prompt : string) (temperature : Q)
  : list event :=
  match gemini_model svc with
  | Some _ => [EvGenerateContent prompt temperature]
  | None => []
  end.

(** The keys an agent's validation asks of a parsed reply; empty for the
    agents that do not validate. *)
Definition validated_keys (c : agent_class) : list string :=
  match c with
  | CostSupplyChain => PredictiveCostSupplyChainAgent.required_keys
  | ProjectManagement =>
      AdaptiveProjectManagementRoboticsOrchestrationAgent.required_keys
  | RiskSafety => ProactiveRiskSafetyManagementAgent.required_keys
  | DataIntegration => SemanticDataIntegrationOntologyAgent.required_keys
  | LearningAdaptation => LearningAdaptationAgent.required_keys
  | HumanCollaboration => HumanAICollaborationExplainabilityAgent.required_keys
  | Sustainability => SustainabilityGreenBuildingAgent.required_keys
  | LegalContract => LegalContractManagementAgent.required_keys
  | WorkforceHR => WorkforceManagementHRAgent.required_keys
  | FacilityManagement => PostConstructionFacilityManagementAgent.required_keys
  | PublicRelations => PublicRelationsStakeholderCommunicationAgent.required_keys
  | _ => []
  end.

(** The keys an agent reads from the parsed reply (or from its fallback). *)
Definition consumed_keys (c : agent_class) : list string :=
  match c with
  | ClientEngagement =>
      ["parsed_requirements"; "clarification_needed"; "suggested_next_steps"]
  | SiteIntelligence => ["summary"; "compliance_challenges"; "recommendations"]
  | ArchitecturalDesign => ["design_summary"; "key_elements"; "considerations"]
  | SystemsEngineering => ["structural_notes"; "mep_notes"; "integration_challenges"]
  | ExperientialDesign =>
      ["interior_style"; "landscape_features"; "material_palette_notes"]
  | DigitalTwin => []
  | _ => validated_keys c
  end.

(** The locals of [process_request] that some fallback dict is built from. *)
Record locals : Type := {
  project_id : value;
  cost_supply_chain_analysis : value;
  estimated_schedule : value;
  client_data : value
}.

Section Fallbacks.
Context `{Interpreter}.

(** The fallback of each class; the digital twin agent parses nothing and has
    none. *)
Definition fallback_of (c : agent_class) (l : locals) : option (M value) :=
  match c with
  | ClientEngagement => Some (StrategicClientEngagementAgent.fallback (client_data l))
  | SiteIntelligence => Some SiteIntelligenceRegulatoryComplianceAgent.fallback
  | ArchitecturalDesign => Some GenerativeArchitecturalDesignAgent.fallback
  | SystemsEngineering => Some IntegratedSystemsEngineeringAgent.fallback
  | ExperientialDesign => Some InteriorExperientialDesignAgent.fallback
  | DigitalTwin => None
  | CostSupplyChain => Some (PredictiveCostSupplyChainAgent.fallback (project_id l))
  | ProjectManagement =>
      Some (AdaptiveProjectManagementRoboticsOrchestrationAgent.fallback
              (cost_supply_chain_analysis l) (estimated_schedule l))
  | RiskSafety => Some ProactiveRiskSafetyManagementAgent.fallback
  | DataIntegration => Some SemanticDataIntegrationOntologyAgent.fallback
  | LearningAdaptation => Some LearningAdaptationAgent.fallback
  | HumanCollaboration => Some HumanAICollaborationExplainabilityAgent.fallback
  | Sustainability => Some SustainabilityGreenBuildingAgent.fallback
  | LegalContract => Some LegalContractManagementAgent.fallback
  | WorkforceHR => Some WorkforceManagementHRAgent.fallback
  | FacilityManagement => Some PostConstructionFacilityManagementAgent.fallback
  | PublicRelations => Some PublicRelationsStakeholderCommunicationAgent.fallback
  end.

End Fallbacks.

(** The classes whose fallback is built from the input. *)
Definition input_dependent_fallback (c : agent_class) : bool :=
  match c with
  | ClientEngagement | CostSupplyChain | ProjectManagement => true
  | _ => false
  end.

(** ** A concrete interpreter, SDK and inputs, to run the agents on *)

Module Demo.

Definition dq : string := String (Ascii.ascii_of_nat 34) EmptyString.

(** The text [{"total_estimated_cost_usd": 100, "cost_breakdown": {"materials":
    60}, "procurement_strategy": "bulk"}]. *)
Definition cost_reply : string :=
  "{" +:+ dq +:+ "total_estimated_cost_usd" +:+ dq +:+ ": 100, "
  +:+ dq +:+ "cost_breakdown" +:+ dq +:+ ": {" +:+ dq +:+ "materials" +:+ dq +:+ ": 60}, "
  +:+ dq +:+ "procurement_strategy" +:+ dq +:+ ": " +:+ dq +:+ "bulk" +:+ dq +:+ "}".

(** [json.loads] on the four texts the examples use: [{}], [[]], the cost
    reply above, and anything else, which stands for a text that is not
    JSON (such as [not json]). *)
Definition decode (s : string) : option json :=
  if String.eqb s "{}" then Some (JObj [])
  else if String.eqb s "[]" then Some (JArr [])
  else if String.eqb s cost_reply then
    Some (JObj [("total_estimated_cost_usd", JInt 100);
                ("cost_breakdown", JObj [("materials", JInt 60)]);
                ("procurement_strategy", JStr "bulk")])
  else None.

#[export] Instance interpreter : Interpreter := {|
  json_decode := decode;
  json_encode := λ _ _ _, "<json>";
  container_repr := λ _ v, "<" +:+ type_name v +:+ ">";
  str_hash := λ s, Z.of_nat (String.length s);
  float_hash := λ _, 0%Z;
  none_hash := 0%Z;
  b64encode := λ bytes, "<" +:+ pretty (length bytes) +:+ " bytes>"
|}.

#[export] Instance common : Common := {|
  format_output_json := λ _ _, Ok "<json>"
|}.

Definition text_reply (s : string) : GenerateContentResponse :=
  {| candidates := [ {| content := {| parts := [ {| text := s |} ] |} |} ] |}.

(** A text model that answers every prompt with [s]. *)
Definition replying (s : string) : GenerativeModel :=
  {| generate_content := λ _ _, Ok (text_reply s) |}.





Definition settings : Settings :=
  {| GOOGLE_APPLICATION_CREDENTIALS := "/keys/sa.json"; PROJECT_ID := "demo";
     LOCATION := "us-central1"; GEMINI_MODEL_NAME := "gemini-1.5-flash" |}.

Definition a_resolver : Resolver :=
  {| resolver_project_id := "demo"; resolver_location := "us-central1";
     prediction_service_client := {| api_endpoint := "" |};
     model_name := "gemini-1.5-flash" |}.

Definition agent_with (svc : GeminiService) : BaseConstructionAgent :=
  {| self_id := 0; name := "Agent"; description := ""; resolver := a_resolver;
     gemini_service := svc; mock_zoning_data := VNone; mock_project_id := "" |}.

(** The service of an agent whose text model answers [s]; no image model. *)
Definition text_service (s : string) : GeminiService :=
  {| gemini_model := Some (replying s); imagen_model := None |}.

(** A service whose text model refuses every request. *)
Definition failing_service : GeminiService :=
  {| gemini_model :=
       Some {| generate_content := λ _ _, Raise (Exn ServiceError "503 unavailable") |};
     imagen_model := None |}.

(** The service left by a constructor that could not initialise. *)
Definition no_service : GeminiService :=
  {| gemini_model := None; imagen_model := None |}.

Definition world_of (st : list dictobj) : world := World st [] 0 None None.

(** The input [{"project_id": "p1", "total_estimated_cost_usd": 100}]. *)
Definition input_p1 : world :=
  world_of [[("project_id", VStr "p1"); ("total_estimated_cost_usd", VInt 100)]].

(** The input [{"project_id": [1]}]. *)
Definition input_list_id : world :=
  world_of [[("project_id", VList [VInt 1])]].

(** The input [{"project_id": "p1", "parsed_data": "a house"}]. *)
Definition input_text_requirements : world :=
  world_of [[("project_id", VStr "p1"); ("parsed_data", VStr "a house")]].

(** The empty input [{}]. *)
Definition input_empty : world := world_of [[]].

End Demo.

(** ** Invariants of the world

    An invariant that allocation keeps, with the calls it lets through and
    the objects it lets a method write to. *)
Record invariant : Type := Invariant {
  inv :> world → Prop;
  allowed : event → Prop;
  writable : loc → Prop;
  inv_alloc : ∀ w d, inv w → inv (with_store (store w ++ [d]) w);
  inv_log : ∀ w ev, allowed ev → inv w → inv (with_calls (calls w ++ [ev]) w);
  inv_set : ∀ w r d, writable r → inv w → inv (with_store (<[r := d]> (store w)) w)
}.

(** A computation keeps an invariant when it holds after every run that
    started with it. *)
Definition keeps {A} (J : invariant) (m : M A) : Prop :=
  ∀ w, J w → J (m w).2.

(** ... and yields values with [Φ] when, besides, every value it returns has
    it. *)
Definition yields {A} (J : invariant) (m : M A) (Φ : A → Prop) : Prop :=
  ∀ w, J w → J (m w).2 ∧ ∀ a, (m w).1 = Ok a → Φ a.

(** The objects of [st0] are still there, unchanged. *)
Program Definition frame_inv (st0 : list dictobj) : invariant :=
  {| inv := λ w, st0 `prefix_of` store w;
     allowed := λ _, True;
     writable := λ r, (length st0 ≤ r)%nat |}.
Next Obligation. intros st0 w d Hp. simpl. by apply prefix_app_r. Qed.
Next Obligation. intros st0 w ev _ Hp. exact Hp. Qed.
Next Obligation.
  intros st0 w r d Hr [k Hk]. simpl. rewrite Hk.
  rewrite insert_app_r_alt by done. by eexists.
Qed.

(** The calls [cs] were made, in this order, before anything else. *)
Program Definition trace_inv (cs : list event) : invariant :=
  {| inv := λ w, cs `prefix_of` calls w;
     allowed := λ _, True;
     writable := λ _, True |}.
Next Obligation. intros cs w d Hp. exact Hp. Qed.
Next Obligation. intros cs w ev _ Hp. simpl. by apply prefix_app_r. Qed.
Next Obligation. intros cs w r d _ Hp. exact Hp. Qed.

(** Nothing but allocation has happened since [w0]. *)
Program Definition quiet_inv (w0 : world) : invariant :=
  {| inv := λ w, store w0 `prefix_of` store w ∧ calls w = calls w0
                 ∧ instances w = instances w0
                 ∧ _adk_agents w = _adk_agents w0 ∧ _resolver w = _resolver w0;
     allowed := λ _, False;
     writable := λ _, False |}.
Next Obligation. intros w0 w d (Hp & ? & ? & ? & ?). simpl. split; [by apply prefix_app_r | done]. Qed.
Next Obligation. intros w0 w ev []. Qed.
Next Obligation. intros w0 w r d []. Qed.

(** An induction principle for JSON trees that reaches below arrays and
    objects. *)
Section JsonInduction.
Variable P : json → Prop.
Hypothesis HNull : P JNull.
Hypothesis HBool : ∀ b, P (JBool b).
Hypothesis HInt : ∀ n, P (JInt n).
Hypothesis HFloat : ∀ s, P (JFloat s).
Hypothesis HStr : ∀ s, P (JStr s).
Hypothesis HArr : ∀ items, Forall P items → P (JArr items).
Hypothesis HObj : ∀ members, Forall (λ kv, P kv.2) members → P (JObj members).

Fixpoint json_nested_ind (j : json) : P j :=
  match j with
  | JNull => HNull
  | JBool b => HBool b
  | JInt n => HInt n
  | JFloat s => HFloat s
  | JStr s => HStr s
  | JArr items =>
      HArr items
        ((fix go (l : list json) : Forall P l :=
            match l with
            | [] => Forall_nil_2 P
            | x :: l' => Forall_cons_2 P x l' (json_nested_ind x) (go l')
            end) items)
  | JObj members =>
      HObj members
        ((fix go (l : list (string * json)) : Forall (λ kv, P kv.2) l :=
            match l with
            | [] => Forall_nil_2 _
            | kv :: l' =>
                Forall_cons_2 (λ kv, P kv.2) kv l' (json_nested_ind kv.2) (go l')
            end) members)
  end.

End JsonInduction.

(** * Properties *)

(** ** Running the monad *)

Lemma bind_ok {A B} (m : M A) (f : A → M B) w a w1 :
  m w = (Ok a, w1) → (m ≫= f) w = f a w1.
Proof. intros Hm. unfold mbind, M_bind. by rewrite Hm. Qed.

Lemma bind_raise {A B} (m : M A) (f : A → M B) w e w1 :
  m w = (Raise e, w1) → (m ≫= f) w = (Raise e, w1).
Proof. intros Hm. unfold mbind, M_bind. by rewrite Hm. Qed.

Lemma try_ok {A} (body : M A) cls handler w a w1 :
  body w = (Ok a, w1) → try_except body cls handler w = (Ok a, w1).
Proof. intros Hm. unfold try_except. by rewrite Hm. Qed.

Lemma try_caught {A} (body : M A) cls handler w e w1 :
  body w = (Raise e, w1) → isinstance_exn e cls = true →
  try_except body cls handler w = handler e w1.
Proof. intros Hm Hc. unfold try_except. by rewrite Hm, Hc. Qed.

Lemma try_uncaught {A} (body : M A) cls handler w e w1 :
  body w = (Raise e, w1) → isinstance_exn e cls = false →
  try_except body cls handler w = (Raise e, w1).
Proof. intros Hm Hc. unfold try_except. by rewrite Hm, Hc. Qed.

Lemma isinstance_Exception e : isinstance_exn e Exception = true.
Proof. reflexivity. Qed.

(** ** What keeps an invariant *)

Section Keeps.
Context `{Interpreter}.
Variable J : invariant.

Lemma keeps_ret {A} (a : A) : keeps J (mret a).
Proof. intros w Hw. exact Hw. Qed.

Lemma keeps_raise {A} c msg : keeps J (raise (A:=A) c msg).
Proof. intros w Hw. exact Hw. Qed.

Lemma keeps_lift {A} (r : result A) : keeps J (lift r).
Proof. intros w Hw. exact Hw. Qed.

Lemma keeps_bind {A B} (m : M A) (f : A → M B) :
  keeps J m → (∀ a, keeps J (f a)) → keeps J (m ≫= f).
Proof.
  intros Hm Hf w Hw. specialize (Hm w Hw). unfold mbind, M_bind.
  destruct (m w) as [[a|e] w1]; simpl in *; [by apply Hf | done].
Qed.

Lemma yields_bind {A B} (m : M A) (f : A → M B) Φ :
  yields J m Φ → (∀ a, Φ a → keeps J (f a)) → keeps J (m ≫= f).
Proof.
  intros Hm Hf w Hw. destruct (Hm w Hw) as [Hw1 Ha]. unfold mbind, M_bind.
  destruct (m w) as [[a|e] w1]; simpl in *; [|done].
  apply Hf; [by apply Ha | done].
Qed.

Lemma keeps_try {A} (body : M A) cls handler :
  keeps J body → (∀ e, keeps J (handler e)) → keeps J (try_except body cls handler).
Proof.
  intros Hm Hh w Hw. specialize (Hm w Hw). unfold try_except.
  destruct (body w) as [[a|e] w1]; simpl in *; [done|].
  destruct (isinstance_exn e cls); [by apply Hh | done].
Qed.

Lemma yields_ret {A} (a : A) (Φ : A → Prop) : Φ a → yields J (mret a) Φ.
Proof. intros Ha w Hw. split; [done|]. by intros ? [= <-]. Qed.

Lemma yields_raise {A} c msg (Φ : A → Prop) : yields J (raise c msg) Φ.
Proof. intros w Hw. by split. Qed.

Lemma yields_keeps {A} (m : M A) (Φ : A → Prop) : yields J m Φ → keeps J m.
Proof. intros Hm w Hw. by apply Hm. Qed.

Lemma yields_bind_val {A B} (m : M A) (f : A → M B) Ψ Φ :
  yields J m Ψ → (∀ a, Ψ a → yields J (f a) Φ) → yields J (m ≫= f) Φ.
Proof.
  intros Hm Hf w Hw. destruct (Hm w Hw) as [Hw1 Ha]. unfold mbind, M_bind.
  destruct (m w) as [[a|e] w1]; simpl in *; [|by split].
  apply Hf; [by apply Ha | done].
Qed.

Lemma yields_bind_last {A B} (m : M A) (f : A → M B) Φ :
  keeps J m → (∀ a, yields J (f a) Φ) → yields J (m ≫= f) Φ.
Proof.
  intros Hm Hf. apply (yields_bind_val m f (λ _, True)); [|auto].
  intros w Hw. split; [by apply Hm | done].
Qed.

Lemma yields_try {A} (body : M A) cls handler Φ :
  yields J body Φ → (∀ e, yields J (handler e) Φ) →
  yields J (try_except body cls handler) Φ.
Proof.
  intros Hm Hh w Hw. destruct (Hm w Hw) as [Hw1 Ha]. unfold try_except.
  destruct (body w) as [[a|e] w1]; simpl in *; [by split|].
  destruct (isinstance_exn e cls); [by apply Hh | by split].
Qed.

Lemma keeps_log_call ev : allowed J ev → keeps J (log_call ev).
Proof. intros Hev w Hw. by apply inv_log. Qed.

Lemma keeps_external {A} ev (answer : result A) :
  allowed J ev → keeps J (external ev answer).
Proof. intros Hev w Hw. by apply inv_log. Qed.

Lemma keeps_new_dict items : keeps J (new_dict items).
Proof. intros w Hw. by apply inv_alloc. Qed.

Lemma keeps_deref r : keeps J (deref r).
Proof. intros w Hw. unfold deref. by destruct (store w !! r). Qed.

Lemma keeps_no_attribute {A} v attr : keeps J (no_attribute (A:=A) v attr).
Proof. apply keeps_raise. Qed.

Lemma keeps_py_get_with v k dflt : keeps J dflt → keeps J (py_get_with v k dflt).
Proof.
  intros Hd. destruct v; try apply keeps_no_attribute.
  simpl. apply keeps_bind; [done|]. intros x.
  apply keeps_bind; [apply keeps_deref | intros; apply keeps_ret].
Qed.

Lemma keeps_py_get v k dflt : keeps J (py_get v k dflt).
Proof. apply keeps_py_get_with, keeps_ret. Qed.

Lemma keeps_py_get_or_new_dict v k : keeps J (py_get_or_new_dict v k).
Proof. apply keeps_py_get_with, keeps_new_dict. Qed.

Lemma keeps_py_keys v : keeps J (py_keys v).
Proof. destruct v; try apply keeps_no_attribute. apply keeps_ret. Qed.

Lemma keeps_py_getitem v k : keeps J (py_getitem v k).
Proof.
  destruct v; try apply keeps_raise. simpl.
  apply keeps_bind; [apply keeps_deref|]. intros d.
  destruct (dict_lookup k d); [apply keeps_ret | apply keeps_raise].
Qed.

Lemma keeps_py_setitem v k x :
  (∀ r, v = VDict r → writable J r) → keeps J (py_setitem v k x).
Proof.
  intros Hv. destruct v; try apply keeps_raise.
  intros w Hw. simpl. destruct (store w !! r); [|done]. simpl.
  apply inv_set; [by apply Hv | done].
Qed.

Lemma keeps_not_dict_or_lacks v keys : keeps J (not_dict_or_lacks v keys).
Proof.
  destruct v; try apply keeps_ret. simpl.
  apply keeps_bind; [apply keeps_deref | intros; apply keeps_ret].
Qed.

Lemma keeps_py_len v : keeps J (py_len v).
Proof.
  destruct v; try apply keeps_raise; try apply keeps_ret; simpl;
    (apply keeps_bind; [apply keeps_deref | intros; apply keeps_ret]).
Qed.

Lemma keeps_py_join sep v : keeps J (py_join sep v).
Proof.
  destruct v; try apply keeps_raise; try apply keeps_ret; simpl;
    (apply keeps_bind; [apply keeps_deref || apply keeps_lift | intros; apply keeps_ret]).
Qed.

Lemma keeps_fmt v : keeps J (fmt v).
Proof. intros w Hw. exact Hw. Qed.

Lemma keeps_py_hash v : keeps J (py_hash v).
Proof. destruct v; try apply keeps_raise; apply keeps_ret. Qed.

Lemma keeps_py_get_by v key dflt : keeps J dflt → keeps J (py_get_by v key dflt).
Proof.
  intros Hd. destruct v; try apply keeps_no_attribute. simpl.
  apply keeps_bind; [done|]. intros x.
  apply keeps_bind; [apply keeps_py_hash|]. intros _.
  apply keeps_bind; [apply keeps_deref|]. intros d.
  destruct key; apply keeps_ret.
Qed.

Lemma keeps_json_dumps indent v : keeps J (json_dumps indent v).
Proof.
  intros w Hw. unfold json_dumps.
  by destruct (dumps_fault _ _ _).
Qed.

Lemma keeps_traverse {A B} (f : A → M B) (l : list A) :
  Forall (λ x, keeps J (f x)) l → keeps J (traverse f l).
Proof.
  induction 1 as [|x l Hx _ IHl]; simpl; [apply keeps_ret|].
  apply keeps_bind; [done|]. intros y.
  apply keeps_bind; [exact IHl | intros; apply keeps_ret].
Qed.

Lemma keeps_alloc_json j : keeps J (alloc_json j).
Proof.
  induction j as [| | | | |items IH|members IH] using json_nested_ind;
    try apply keeps_ret; simpl.
  - apply keeps_bind; [by apply keeps_traverse | intros; apply keeps_ret].
  - apply keeps_bind; [|intros; apply keeps_new_dict].
    apply keeps_traverse. eapply Forall_impl; [exact IH|].
    intros kv Hkv. apply keeps_bind; [done | intros; apply keeps_ret].
Qed.

Lemma keeps_json_loads text :
  allowed J (EvJsonLoads text) → keeps J (json_loads text).
Proof.
  intros Hev. unfold json_loads.
  apply keeps_bind; [intros w Hw; by apply inv_log|]. intros _.
  destruct (json_decode text); [apply keeps_alloc_json | apply keeps_raise].
Qed.

Lemma keeps_generate_text svc prompt temperature :
  allowed J (EvGenerateContent prompt temperature) →
  keeps J (generate_text svc prompt temperature).
Proof.
  intros Hev. unfold generate_text. destruct (gemini_model svc); [|apply keeps_ret].
  apply keeps_try; [|intros; apply keeps_ret].
  apply keeps_bind; [by apply keeps_external|]. intros response.
  destruct (candidates response); [apply keeps_ret|].
  destruct (parts _); apply keeps_ret.
Qed.

Lemma keeps_generate_image svc prompt :
  allowed J (EvGenerateImages prompt 1) → keeps J (generate_image svc prompt).
Proof.
  intros Hev. unfold generate_image. destruct (imagen_model svc); [|apply keeps_ret].
  apply keeps_try; [|intros; apply keeps_ret].
  apply keeps_bind; [by apply keeps_external|]. intros reply.
  destruct (images reply); [apply keeps_ret|].
  apply keeps_bind; [apply keeps_lift | intros; apply keeps_ret].
Qed.

Lemma keeps_error_result self message : keeps J (error_result self message).
Proof. apply keeps_new_dict. Qed.

Lemma keeps_success_result self key payload : keeps J (success_result self key payload).
Proof. apply keeps_new_dict. Qed.

End Keeps.

Create HintDb keeps discriminated.
#[export] Hint Resolve keeps_ret keeps_raise keeps_lift keeps_log_call keeps_external
  keeps_new_dict
  keeps_deref keeps_no_attribute keeps_py_get keeps_py_get_or_new_dict keeps_py_keys
  keeps_py_getitem keeps_not_dict_or_lacks keeps_py_len keeps_py_join keeps_fmt
  keeps_py_hash keeps_json_dumps keeps_alloc_json keeps_json_loads
  keeps_generate_text keeps_generate_image keeps_error_result keeps_success_result
  : keeps.
#[export] Hint Extern 1 (allowed _ _) => exact I : keeps.

Ltac head_of t :=
  lazymatch t with
  | ?f _ => head_of f
  | _ => t
  end.

(** One step of a proof that a program keeps an invariant: follow the
    program's structure, close a primitive with its lemma, open a definition. *)
Ltac keeps_step :=
  lazymatch goal with
  | |- keeps _ (mbind _ _) => apply keeps_bind; [|intros]
  | |- keeps _ (try_except _ _ _) => apply keeps_try; [|intros]
  | |- keeps _ (py_get_by _ _ _) => apply keeps_py_get_by
  | |- keeps _ (py_get_with _ _ _) => apply keeps_py_get_with
  | |- keeps _ (match ?x with _ => _ end) => destruct x
  | |- keeps _ (λ w, (_, w)) => intros ? ?; assumption
  | |- keeps _ ?m =>
      first [ solve [eauto 3 with keeps]
            | let h := head_of m in progress unfold h ]
  end.

Ltac solve_keeps := repeat keeps_step.

(** ** The frame: a run leaves every object it was given as it was *)

(** A value that is not an object of [st0]. *)
Definition fresh (st0 : list dictobj) (v : value) : Prop :=
  ∀ r, v = VDict r → (length st0 ≤ r)%nat.

Section Frame.
Context `{Interpreter} `{Common}.

Lemma frame_length st0 w : frame_inv st0 w → (length st0 ≤ length (store w))%nat.
Proof. apply prefix_length. Qed.

Lemma yields_new_dict_fresh st0 items : yields (frame_inv st0) (new_dict items) (fresh st0).
Proof.
  intros w Hw. split; [by apply keeps_new_dict|].
  intros a [= <-] r [= <-]. by apply frame_length.
Qed.

Lemma yields_alloc_json_fresh st0 j : yields (frame_inv st0) (alloc_json j) (fresh st0).
Proof.
  destruct j; simpl; try (apply yields_ret; intros r; discriminate).
  - apply yields_bind_last; [solve_keeps|].
    + apply keeps_traverse, Forall_forall. intros; apply keeps_alloc_json.
    + intros vs. apply yields_ret. intros r; discriminate.
  - apply yields_bind_last; [|intros; apply yields_new_dict_fresh].
    apply keeps_traverse, Forall_forall. intros; solve_keeps.
Qed.

Lemma yields_json_loads_fresh st0 text :
  yields (frame_inv st0) (json_loads text) (fresh st0).
Proof.
  unfold json_loads. apply yields_bind_last; [solve_keeps|]. intros ?.
  destruct (json_decode text); [apply yields_alloc_json_fresh | apply yields_raise].
Qed.

(** The object that the validating agents go on to update is a new one: the
    dict [json.loads] has just built, or the fallback. *)
Lemma yields_parsed_fresh st0 text keys msg (fb : M value) :
  yields (frame_inv st0) fb (fresh st0) →
  yields (frame_inv st0)
    (try_except
       (parsed ← json_loads text;
        unexpected ← not_dict_or_lacks parsed keys;
        if unexpected : bool then raise ValueError msg else mret parsed)
       JSONDecodeError (λ _, fb))
    (fresh st0).
Proof.
  intros Hfb. apply yields_try; [|done].
  eapply yields_bind_val; [apply yields_json_loads_fresh|]. intros parsed Hp.
  apply yields_bind_last; [solve_keeps|]. intros [].
  - apply yields_raise.
  - by apply yields_ret.
Qed.

Lemma cost_fallback_fresh st0 pid :
  yields (frame_inv st0) (PredictiveCostSupplyChainAgent.fallback pid) (fresh st0).
Proof.
  unfold PredictiveCostSupplyChainAgent.fallback.
  apply yields_bind_last; [solve_keeps|]. intros h.
  apply yields_bind_last; [solve_keeps|]. intros b.
  apply yields_new_dict_fresh.
Qed.

Lemma project_fallback_fresh st0 c e :
  yields (frame_inv st0)
    (AdaptiveProjectManagementRoboticsOrchestrationAgent.fallback c e) (fresh st0).
Proof.
  unfold AdaptiveProjectManagementRoboticsOrchestrationAgent.fallback.
  apply yields_bind_last; [solve_keeps|]. intros s1.
  apply yields_bind_last; [solve_keeps|]. intros s2.
  apply yields_new_dict_fresh.
Qed.

(** One more case for the two agents that update the parsed object. *)
Ltac frame_step :=
  first
    [ lazymatch goal with
      | |- keeps (frame_inv _) (mbind _ (try_except (mbind _ (json_loads _)) _ _)) =>
          eapply yields_bind;
          [ apply yields_parsed_fresh;
            first [ apply cost_fallback_fresh | apply project_fallback_fresh ]
          | intros ? ? ]
      | |- keeps (frame_inv _) (py_setitem _ _ _) => apply keeps_py_setitem; assumption
      end
    | keeps_step ].

Lemma process_request_keeps_frame st0 c self user_input :
  keeps (frame_inv st0) (process_request c self user_input).
Proof. destruct c; repeat frame_step. Qed.

End Frame.

(** ** When text generation gives nothing *)

(** [out] is the result [{"agent_name": ..., "status": "error", "message": ...}]. *)
Definition error_output (self : BaseConstructionAgent) (w : world) (out : value) : Prop :=
  ∃ r msg, out = VDict r ∧
    store w !! r = Some [("agent_name", VStr (name self));
                         ("status", VStr "error");
                         ("message", VStr msg)].

(** No text generation call among [evs] was answered with a text. *)
Definition no_content (svc : GeminiService) (evs : list event) : Prop :=
  ∀ p t, EvGenerateContent p t ∈ evs → answer svc p t = None.

(** The body of an agent's [try]: when generation gives nothing, it parses
    nothing, and what it returns is an error result. *)
Definition fails_without_content (svc : GeminiService) (self : BaseConstructionAgent)
    (m : M value) : Prop :=
  ∀ w, ∃ evs, calls (m w).2 = calls w ++ evs ∧
    (no_content svc evs →
     Forall (λ ev, is_loads ev = false) evs ∧
     match (m w).1 with
     | Ok out => error_output self (m w).2 out
     | Raise _ => True
     end).

(** The same for a whole method, which also has to return. *)
Definition reports_no_content (svc : GeminiService) (self : BaseConstructionAgent)
    (P : world → Prop) (m : M value) : Prop :=
  ∀ w, P w → ∃ evs, calls (m w).2 = calls w ++ evs ∧
    (no_content svc evs →
     Forall (λ ev, is_loads ev = false) evs ∧
     ∃ out, (m w).1 = Ok out ∧ error_output self (m w).2 out).

(** A step that cannot fail from a world with [P], keeps [P] and calls
    nothing. *)
Definition sure {A} (P : world → Prop) (m : M A) : Prop :=
  ∀ w, P w → ∃ a, (m w).1 = Ok a ∧ P (m w).2 ∧ calls (m w).2 = calls w.

(** The input is the dict at [r], with the items [d]. *)
Definition input_is (r : loc) (d : dictobj) (w : world) : Prop :=
  store w !! r = Some d.

(** What the statements before the [try] need of the input's items: the
    data-integration agent calls [.keys()] on seven of them. *)
Definition dict_or_absent (d : dictobj) (k : string) : Prop :=
  match dict_lookup k d with
  | Some (VDict _) | None => True
  | Some _ => False
  end.

Definition extracts (c : agent_class) (d : dictobj) : Prop :=
  match c with
  | DataIntegration =>
      Forall (dict_or_absent d)
        ["parsed_data"; "site_feasibility_report"; "architectural_concept";
         "system_design"; "experiential_design"; "cost_supply_chain_analysis";
         "estimated_schedule"]
  | _ => True
  end.

Section NoContent.
Context `{Interpreter} `{Common}.

Lemma quiet_calls {A} (m : M A) w :
  (∀ w0, keeps (quiet_inv w0) m) → calls (m w).2 = calls w.
Proof. intros Hm. by apply (Hm w w). Qed.

Lemma quiet_store {A} (m : M A) w :
  (∀ w0, keeps (quiet_inv w0) m) → store w `prefix_of` store (m w).2.
Proof. intros Hm. by apply (Hm w w). Qed.

Lemma generate_text_result svc p t w :
  (generate_text svc p t w).1 = Ok (answer svc p t).
Proof.
  unfold generate_text, answer. destruct (gemini_model svc) as [model|]; [|done].
  unfold try_except, external, mbind, M_bind, log_call, lift. simpl.
  destruct (generate_content model p t) as [response|e]; [|done]. simpl.
  destruct (candidates response) as [|first rest]; [done|].
  by destruct (parts (content first)).
Qed.

Lemma generate_text_calls svc p t w :
  calls (generate_text svc p t w).2 =
  calls w ++ generation_calls svc p t.
Proof.
  unfold generate_text, generation_calls. destruct (gemini_model svc) as [model|]; [|by rewrite app_nil_r].
  unfold try_except, external, mbind, M_bind, log_call, lift. simpl.
  destruct (generate_content model p t) as [response|e]; [|done]. simpl.
  destruct (candidates response) as [|first rest]; [done|].
  by destruct (parts (content first)).
Qed.

Lemma answer_needs_model svc p t s : answer svc p t = Some s → is_Some (gemini_model svc).
Proof. unfold answer. by destruct (gemini_model svc). Qed.

Lemma error_result_run self msg w :
  error_result self msg w =
  (Ok (VDict (length (store w))),
   with_store (store w ++ [[("agent_name", VStr (name self));
                            ("status", VStr "error");
                            ("message", VStr msg)]]) w).
Proof. reflexivity. Qed.

Lemma error_result_is_error self msg w :
  error_output self (error_result self msg w).2 (VDict (length (store w))).
Proof.
  exists (length (store w)), msg. split; [done|].
  rewrite error_result_run. simpl. by rewrite list_lookup_middle.
Qed.

Lemma fails_error_result svc self msg :
  fails_without_content svc self (error_result self msg).
Proof.
  intros w. exists []. split; [by rewrite app_nil_r|]. intros _. split; [done|].
  apply error_result_is_error.
Qed.

Lemma fails_bind {A} svc self (m : M A) (f : A → M value) :
  (∀ w0, keeps (quiet_inv w0) m) →
  (∀ a, fails_without_content svc self (f a)) →
  fails_without_content svc self (m ≫= f).
Proof.
  intros Hm Hf w. pose proof (quiet_calls m w Hm) as Hc.
  unfold mbind, M_bind. destruct (m w) as [[a|e] w1]; simpl in *.
  - destruct (Hf a w1) as (evs & Hevs & Hres). exists evs. by rewrite <- Hc.
  - exists []. rewrite app_nil_r. by split.
Qed.

(** The step after the prompt: with no text, the error result; the other
    branch is only reached with a text. *)
Lemma fails_generate svc self p t (unavailable : M value) (continue : string → M value) :
  fails_without_content svc self unavailable →
  (∀ s cs, keeps (trace_inv cs) (continue s)) →
  fails_without_content svc self
    (llm_response ← generate_text svc p t;
     match llm_response with
     | None => unavailable
     | Some s => continue s
     end).
Proof.
  intros Hnone Hsome w.
  pose proof (generate_text_result svc p t w) as Hr.
  pose proof (generate_text_calls svc p t w) as Hc.
  unfold mbind, M_bind. destruct (generate_text svc p t w) as [r w1]; simpl in *.
  subst r. destruct (answer svc p t) as [s|] eqn:Hanswer.
  - destruct (answer_needs_model _ _ _ _ Hanswer) as [model Hmodel].
    unfold generation_calls in Hc. rewrite Hmodel in Hc.
    assert (calls w1 `prefix_of` calls (continue s w1).2) as [rest Hrest]
      by (apply (Hsome s (calls w1) w1); simpl; reflexivity).
    exists ([EvGenerateContent p t] ++ rest). split.
    + rewrite Hrest, Hc. by rewrite <- app_assoc.
    + intros Hno. specialize (Hno p t). rewrite Hanswer in Hno.
      discriminate Hno. apply elem_of_app. left. apply list_elem_of_singleton. done.
  - destruct (Hnone w1) as (evs & Hevs & Hres).
    exists (generation_calls svc p t ++ evs). split.
    + rewrite Hevs, Hc. by rewrite <- app_assoc.
    + intros Hno. destruct Hres as [Hl Hout].
      { intros p' t' Hin. apply Hno, elem_of_app. by right. }
      split; [|done]. apply Forall_app. split; [|done].
      unfold generation_calls. destruct (gemini_model svc); by repeat constructor.
Qed.

(** The outer [try]: whatever the body raised becomes an error result. *)
Lemma reports_try svc self (P : world → Prop) (body : M value) (handler : exn → M value) :
  fails_without_content svc self body →
  (∀ e w, ∃ msg, handler e w = error_result self msg w) →
  reports_no_content svc self P (try_except body Exception handler).
Proof.
  intros Hbody Hh w _. destruct (Hbody w) as (evs & Hevs & Hres).
  unfold try_except. destruct (body w) as [[out|e] w1]; simpl in *.
  - exists evs. split; [done|]. intros Hno. destruct (Hres Hno). eauto.
  - destruct (Hh e w1) as [msg ->].
    exists evs. split; [done|]. intros Hno. destruct (Hres Hno) as [Hl _].
    split; [done|]. eexists. split; [done|]. apply error_result_is_error.
Qed.

Lemma reports_bind {A} svc self (P : world → Prop) (m : M A) (f : A → M value) :
  sure P m →
  (∀ a, reports_no_content svc self P (f a)) →
  reports_no_content svc self P (m ≫= f).
Proof.
  intros Hm Hf w Hw. destruct (Hm w Hw) as (a & Ha & HP & Hc).
  unfold mbind, M_bind. destruct (m w) as [r w1]; simpl in *. subst r.
  destruct (Hf a w1 HP) as (evs & Hevs & Hres). exists evs. by rewrite <- Hc.
Qed.

Lemma sure_py_get r d k dflt : sure (input_is r d) (py_get (VDict r) k dflt).
Proof.
  intros w Hw. unfold py_get, py_get_with, deref, mbind, M_bind, mret, M_ret.
  red in Hw. rewrite Hw. simpl. eauto.
Qed.

Lemma sure_py_get_or_new_dict r d k :
  sure (input_is r d) (py_get_or_new_dict (VDict r) k).
Proof.
  intros w Hw. unfold py_get_or_new_dict, py_get_with, new_dict, deref, mbind, M_bind.
  red in Hw. simpl. rewrite (lookup_app_l_Some _ _ _ _ Hw). simpl.
  eexists. split; [done|]. split; [|done]. by apply lookup_app_l_Some.
Qed.

Lemma sure_keys r d k :
  dict_or_absent d k →
  sure (input_is r d) (py_get_or_new_dict (VDict r) k ≫= py_keys).
Proof.
  intros Hk w Hw. unfold py_get_or_new_dict, py_get_with, new_dict, deref, mbind, M_bind.
  red in Hw. simpl. rewrite (lookup_app_l_Some _ _ _ _ Hw). simpl.
  assert (Hin : input_is r d (with_store (store w ++ [dict_display []]) w)).
  { by apply lookup_app_l_Some. }
  red in Hk. destruct (dict_lookup k d) as [[]|]; simpl; try done; eauto.
Qed.

Lemma sure_fmt_get r d k dflt :
  sure (input_is r d) (py_get (VDict r) k dflt ≫= fmt).
Proof.
  intros w Hw. unfold py_get, py_get_with, deref, fmt, mbind, M_bind, mret, M_ret.
  red in Hw. rewrite Hw. simpl. eauto.
Qed.

Lemma sure_new_dict r d items : sure (input_is r d) (new_dict items).
Proof.
  intros w Hw. eexists. split; [done|]. split; [|done]. by apply lookup_app_l_Some.
Qed.

End NoContent.

Ltac trace_step :=
  first
    [ lazymatch goal with
      | |- keeps (trace_inv _) (py_setitem _ _ _) =>
          apply keeps_py_setitem; intros; exact I
      end
    | keeps_step ].

Ltac fails_step :=
  lazymatch goal with
  | |- fails_without_content _ _ (mbind _ (generate_text _ _ _)) =>
      apply fails_generate; [apply fails_error_result | intros; repeat trace_step]
  | |- fails_without_content _ _ (mbind _ _) =>
      apply fails_bind; [intros; solve_keeps | intros ?]
  end.

Ltac reports_step :=
  lazymatch goal with
  | |- reports_no_content _ _ _ (mbind _ (py_get (VDict _) _ _)) =>
      apply reports_bind; [apply sure_py_get | intros ?]
  | |- reports_no_content _ _ _ (mbind _ (py_get_or_new_dict (VDict _) _)) =>
      apply reports_bind; [apply sure_py_get_or_new_dict | intros ?]
  | |- reports_no_content _ _ _ (mbind _ (mbind py_keys (py_get_or_new_dict (VDict _) _))) =>
      apply reports_bind; [apply sure_keys; assumption | intros ?]
  | |- reports_no_content _ _ _ (mbind _ (mbind fmt (py_get (VDict _) _ _))) =>
      apply reports_bind; [apply sure_fmt_get | intros ?]
  | |- reports_no_content _ _ _ (mbind _ (new_dict _)) =>
      apply reports_bind; [apply sure_new_dict | intros ?]
  | |- reports_no_content _ _ _ (try_except _ Exception _) =>
      apply reports_try; [|intros ? ?; eexists; reflexivity]
  end.

Section NoContentAgents.
Context `{Interpreter} `{Common}.

Lemma process_request_reports_no_content c self r d :
  c ≠ DigitalTwin → extracts c d →
  reports_no_content (gemini_service self) self (input_is r d)
    (process_request c self (VDict r)).
Proof.
  intros Hc Hx. destruct c; try done; simpl in Hx;
    repeat match goal with
           | Hk : Forall _ (_ :: _) |- _ => apply Forall_cons_1 in Hk as [? Hk]
           end;
    unfold process_request;
    match goal with
    | |- reports_no_content _ _ _ ?m => let h := head_of m in unfold h
    end;
    cbv zeta;
    repeat reports_step; repeat fails_step.
Qed.

End NoContentAgents.

(** * The claims *)

Section Claims.
Context `{Interpreter} `{Common}.

(** C10.  No agent changes its input: every object that is in the store when
    [process_request] is called (the input mapping and everything it refers
    to) has exactly the same items when it returns, whatever the input, the
    model replies and the outcome. *)
Theorem process_request_leaves_its_input_unchanged
    (c : agent_class) (self : BaseConstructionAgent) (user_input : value)
    (w : world) (r : loc) (d : dictobj) :
  store w !! r = Some d →
  store (process_request c self user_input w).2 !! r = Some d.
Proof.
  intros Hr.
  assert (Hp : store w `prefix_of` store (process_request c self user_input w).2).
  { apply (process_request_keeps_frame (store w) c self user_input w). simpl. reflexivity. }
  by apply (prefix_lookup_Some _ _ _ _ Hr).
Qed.

(** C3, as amended.  For every agent that calls [generate_text] (all but the
    digital twin agent), on an input mapping that the statements before the
    [try] accept: when no text generation call of the run was answered with a
    text, [process_request] returns a result with status "error" and a
    message, and the run contains no call of [json.loads]. *)
Theorem text_generation_without_content_is_an_error
    (c : agent_class) (self : BaseConstructionAgent) (w : world) (r : loc)
    (d : dictobj) (res : result value) (w' : world) :
  c ≠ DigitalTwin →
  store w !! r = Some d →
  extracts c d →
  process_request c self (VDict r) w = (res, w') →
  no_content (gemini_service self) (new_calls w w') →
  ∃ out msg,
    res = Ok out
    ∧ field w' out "agent_name" = Some (VStr (name self))
    ∧ field w' out "status" = Some (VStr "error")
    ∧ field w' out "message" = Some (VStr msg)
    ∧ Forall (λ ev, is_loads ev = false) (new_calls w w').
Proof.
  intros Hc Hr Hx Hrun Hno.
  destruct (process_request_reports_no_content c self r d Hc Hx w Hr)
    as (evs & Hevs & Hres).
  rewrite Hrun in Hevs, Hres. simpl in Hevs, Hres.
  assert (Hnew : new_calls w w' = evs).
  { unfold new_calls. rewrite Hevs. by rewrite drop_app_length. }
  rewrite Hnew in Hno |- *.
  destruct (Hres Hno) as (Hl & out & -> & ro & msg & -> & Hout).
  exists (VDict ro), msg. simpl. rewrite Hout. by repeat split.
Qed.

End Claims.

(** A run of C10: the input [{"project_id": "p1", "total_estimated_cost_usd":
    100}] through the cost agent, whose model answers [not json]. *)
Lemma process_request_leaves_its_input_unchanged_witness :
  store (@process_request Demo.interpreter Demo.common CostSupplyChain
           (Demo.agent_with (Demo.text_service "not json")) (VDict 0) Demo.input_p1).2
    !! 0
  = Some [("project_id", VStr "p1"); ("total_estimated_cost_usd", VInt 100%Z)].
Proof.
  apply (@process_request_leaves_its_input_unchanged Demo.interpreter Demo.common).
  reflexivity.
Defined.

(** A run of C3: the cost agent with a text model that refuses every
    request. *)
Lemma text_generation_without_content_is_an_error_witness :
  ∃ out msg,
    (@process_request Demo.interpreter Demo.common CostSupplyChain
       (Demo.agent_with Demo.failing_service) (VDict 0) Demo.input_p1).1 = Ok out
    ∧ field (@process_request Demo.interpreter Demo.common CostSupplyChain
               (Demo.agent_with Demo.failing_service) (VDict 0) Demo.input_p1).2
        out "status" = Some (VStr "error")
    ∧ field (@process_request Demo.interpreter Demo.common CostSupplyChain
               (Demo.agent_with Demo.failing_service) (VDict 0) Demo.input_p1).2
        out "message" = Some (VStr msg).
Proof.
  destruct (@text_generation_without_content_is_an_error Demo.interpreter Demo.common
              CostSupplyChain (Demo.agent_with Demo.failing_service) Demo.input_p1 0
              [("project_id", VStr "p1"); ("total_estimated_cost_usd", VInt 100%Z)]
              _ _ ltac:(discriminate) eq_refl I (surjective_pairing _)
              ltac:(intros p t _; reflexivity))
    as (out & msg & Hout & _ & Hstatus & Hmsg & _).
  exists out, msg. by repeat split.
Defined.

(** C3 as stated fails for image generation: the digital twin agent, with a
    service whose [generate_image] returns no content for every prompt,
    returns status "success". *)
Lemma digital_twin_succeeds_without_images :
  (∀ p w, (generate_image (H:=Demo.interpreter) Demo.no_service p w).1 = Ok None)
  ∧ ∃ out w',
      @process_request Demo.interpreter Demo.common DigitalTwin
        (Demo.agent_with Demo.no_service) (VDict 0) Demo.input_empty = (Ok out, w')
      ∧ field w' out "status" = Some (VStr "success").
Proof.
  split; [reflexivity|].
  eexists _, _. split; [vm_compute; reflexivity | reflexivity].
Qed.

(** C1, on the code.  The cost agent, given the input [{"project_id": "p1",
    "total_estimated_cost_usd": 100}] and the model reply [{}] (a JSON object
    that lacks the three required keys), does not use its fallback: the
    [ValueError] of the validation is not a [JSONDecodeError], passes the inner
    handler and reaches the outer one, and the result has status "error". *)
Theorem cost_agent_reports_a_missing_key_as_an_error :
  json_decode (Interpreter:=Demo.interpreter) "{}" = Some (JObj [])
  ∧ ∃ out w',
      @process_request Demo.interpreter Demo.common CostSupplyChain
        (Demo.agent_with (Demo.text_service "{}")) (VDict 0) Demo.input_p1 = (Ok out, w')
      ∧ field w' out "status" = Some (VStr "error")
      ∧ field w' out "message" =
          Some (VStr ("Failed cost and supply chain analysis for p1: "
                      +:+ "LLM response JSON is not in the expected cost/supply chain format.")).
Proof.
  split; [reflexivity|].
  eexists _, _. split; [vm_compute; reflexivity | split; reflexivity].
Qed.

(** C4, on the code.  The data-integration agent calls [.keys()] on seven
    items of its input before its [try] begins.  On the input [{"project_id":
    "p1", "parsed_data": "a house"}] the [AttributeError] of that call leaves
    [process_request]: no result is returned. *)
Theorem data_integration_agent_raises_outside_its_try :
  ∃ w',
    @process_request Demo.interpreter Demo.common DataIntegration
      (Demo.agent_with (Demo.text_service "{}")) (VDict 0) Demo.input_text_requirements
    = (Raise (Exn AttributeError "'str' object has no attribute 'keys'"), w').
Proof. eexists. vm_compute. reflexivity. Qed.

(** C2 as stated fails when the project id cannot be hashed: on the input
    [{"project_id": [1]}] and a reply that is not JSON, building the fallback
    raises [TypeError] inside the handler and the result has status "error". *)
Lemma cost_fallback_fails_on_an_unhashable_project_id :
  json_decode (Interpreter:=Demo.interpreter) "not json" = None
  ∧ ∃ out w',
      @process_request Demo.interpreter Demo.common CostSupplyChain
        (Demo.agent_with (Demo.text_service "not json")) (VDict 0) Demo.input_list_id
      = (Ok out, w')
      ∧ field w' out "status" = Some (VStr "error").
Proof.
  split; [reflexivity|].
  eexists _, _. split; [vm_compute; reflexivity | reflexivity].
Qed.



(** ** The registry *)

(** The module global [_resolver] holds [r]. *)
Program Definition resolver_inv (r : Resolver) : invariant :=
  {| inv := λ w, _resolver w = Some r;
     allowed := λ _, True;
     writable := λ _, True |}.
Next Obligation. done. Qed.
Next Obligation. done. Qed.
Next Obligation. done. Qed.


Section RegistryFacts.
Context `{Interpreter} `{VertexAI} `{Common}.



Lemma keeps_new_instance r : keeps (resolver_inv r) new_instance.
Proof. intros w Hw. exact Hw. Qed.

Lemma keeps_new_GeminiService (J : invariant) settings :
  (∀ ev, allowed J ev) → keeps J (new_GeminiService settings).
Proof.
  intros Hall. unfold new_GeminiService.
  apply keeps_try; [|intros; apply keeps_ret].
  repeat (apply keeps_bind; [by apply keeps_external | intros]). apply keeps_ret.
Qed.

Lemma keeps_new_agent r settings n descr res :
  keeps (resolver_inv r) (new_agent settings n descr res).
Proof.
  unfold new_agent, BaseConstructionAgent_init.
  apply keeps_bind; [|intros self].
  - apply keeps_bind; [apply keeps_new_instance | intros; apply keeps_ret].
  - apply keeps_bind; [by apply keeps_new_GeminiService | intros; apply keeps_ret].
Qed.

End RegistryFacts.

#[export] Hint Resolve keeps_new_agent : keeps.

Section RegistryClaim.
Context `{Interpreter} `{VertexAI} `{Common}.
Variable settings : Settings.
Variables quality_name quality_description finance_name finance_description : string.





End RegistryClaim.


(** ** Configuration and the service constructor *)

Section Configuration.
Context `{Interpreter} `{VertexAI}.

Lemma generate_without_handles p t w :
  generate_text {| gemini_model := None; imagen_model := None |} p t w = (Ok None, w)
  ∧ generate_image {| gemini_model := None; imagen_model := None |} p w = (Ok None, w).
Proof. by split. Qed.


End Configuration.


